(** * The authentication health engine of [src/lib/authFixes.ts]

    A shallow embedding of the problem registry (five checks and their
    fixes), the diagnostic aggregator, the fix applicator and the standalone
    session helpers, followed by the properties the specification states
    about them.

    Modelling decisions.
    - The identity provider, the profile store and the clock are external:
      they are a [Provider] over an arbitrary world type [W], every operation
      a state transformer on [W] that either resolves with a typed response
      or rejects.  A statement quantified over [W] and the [Provider] holds
      for every behaviour of the remote side.
    - An [async] function is a computation in the monad [M]: it threads the
      environment, collects the trace of the provider calls it issued and of
      the registry operations it invoked, and completes by returning or by
      throwing.  [await] of a rejected promise throws.
    - Responses have the shape the client library types them with
      ([{ data, error }], each part possibly [null]), so the exceptions of a
      run are the rejections of the calls it awaits.
    - The page (the two browser storages and [window.location.origin]) is
      kept apart from the provider's world: only the code under study
      touches the storages.  What a client that keeps its session in
      [localStorage] does to it during a call is outside the model, so
      nothing is stated about the storages across a provider call except for
      [clearAuthData], which wipes them itself.
    - [Promise.all] over an array of [async] callbacks starts every callback;
      the model runs them in array order, each one to completion.  What an
      entry of a pass reports is stated for the state its callback ran in,
      whichever that is.
    - Numbers that the code uses (epoch seconds, milliseconds) are integers
      of [Z]; strings are [string]s of bytes. *)

From Stdlib Require Import String Ascii List ZArith Bool Lia DecimalString.
Import ListNotations.
Open Scope string_scope.

(* ------------------------------------------------------------------ *)
(** ** JavaScript values the code relies on *)

(** [s.includes(searchString)]: [searchString] occurs somewhere in [s]. *)
Fixpoint includes (s searchString : string) : bool :=
  String.prefix searchString s
  || match s with
     | EmptyString => false
     | String _ rest => includes rest searchString
     end.

(** Truthiness of a string: every string but the empty one. *)
Definition truthy (s : string) : bool :=
  match s with
  | EmptyString => false
  | String _ _ => true
  end.

(** [a || b] on a string that may be [undefined]. *)
Definition or_default (a : option string) (b : string) : string :=
  match a with
  | Some s => if truthy s then s else b
  | None => b
  end.

(** Truthiness of a number: every integer but [0]. *)
Definition truthy_num (n : Z) : bool := negb (n =? 0)%Z.

(** The decimal rendering of an integer inside a template literal. *)
Definition show (n : Z) : string := NilZero.string_of_int (Z.to_int n).

(* ------------------------------------------------------------------ *)
(** ** Responses of the provider *)

Module AuthError.
Record t := mk { message : string }.
End AuthError.

Module Session.
Record t := mk { expires_at : option Z }.
End Session.

Module User.
Record t := mk {
  id : string;
  email : option string;
  user_metadata_name : option string
}.
End User.

(** The row that the [missing_profile] fix inserts into [user_profiles]. *)
Module Profile.
Record t := mk {
  id : string;
  email : string;
  name : string;
  role : string
}.
End Profile.

(** [{ data: { session }, error }] *)
Module SessionResponse.
Record t := mk {
  session : option Session.t;
  error : option AuthError.t
}.
End SessionResponse.

(** [{ data: { user }, error }] *)
Module UserResponse.
Record t := mk {
  user : option User.t;
  error : option AuthError.t
}.
End UserResponse.

(** [{ data, error }] of [.select('id').eq('id', id).single()]; [data] is the
    selected [id] column. *)
Module SelectResponse.
Record t := mk {
  data : option string;
  error : option AuthError.t
}.
End SelectResponse.

(** [{ error }] of [.insert(row)] and of [signOut()]. *)
Module ErrorResponse.
Record t := mk { error : option AuthError.t }.
End ErrorResponse.

(** A promise settles: it resolves with a value or rejects with a reason. *)
Inductive Settled (A : Type) : Type :=
| Resolved (a : A)
| Rejected (reason : string).
Arguments Resolved {A} a.
Arguments Rejected {A} reason.

(** The remote side over a world [W]: [authOperations] ([getSession],
    [getUser], [signOut]), the [supabase] client ([refreshSession], the
    [user_profiles] table) and the clock behind [Date.now()]. *)
Record Provider (W : Type) : Type := {
  getSession : W -> W * Settled SessionResponse.t;
  getUser : W -> W * Settled UserResponse.t;
  signOut : W -> W * Settled ErrorResponse.t;
  refreshSession : W -> W * Settled SessionResponse.t;
  selectProfile : string -> W -> W * Settled SelectResponse.t;
  insertProfile : Profile.t -> W -> W * Settled ErrorResponse.t;
  dateNow : W -> W * Z
}.
Arguments getSession {W} _ _.
Arguments getUser {W} _ _.
Arguments signOut {W} _ _.
Arguments refreshSession {W} _ _.
Arguments selectProfile {W} _ _ _.
Arguments insertProfile {W} _ _ _.
Arguments dateNow {W} _ _.

(* ------------------------------------------------------------------ *)
(** ** Browser storage *)

(** [localStorage] and [sessionStorage]: keys in enumeration order with
    their values. *)
Definition Storage : Type := list (string * string).

Module StorageOps.
Definition length (st : Storage) : nat := List.length st.

(** [key(i)]: the [i]-th key, [null] past the end. *)
Definition key (st : Storage) (i : nat) : option string :=
  option_map fst (nth_error st i).

Fixpoint getItem (st : Storage) (k : string) : option string :=
  match st with
  | [] => None
  | (k', v) :: rest => if (k' =? k)%string then Some v else getItem rest k
  end.

Definition removeItem (st : Storage) (k : string) : Storage :=
  filter (fun kv => negb (fst kv =? k)%string) st.
End StorageOps.

(* ------------------------------------------------------------------ *)
(** ** Computations *)

(** What a run can observe: a call that reached the provider (and whether its
    promise rejected), and the invocation of a problem's [check] or [fix]. *)
Inductive Call : Type :=
| GetSession
| GetUser
| SignOut
| RefreshSession
| SelectProfile (id : string)
| InsertProfile (row : Profile.t).

Inductive Event : Type :=
| EvCall (c : Call) (rejected : bool)
| EvCheck (id : string)
| EvFix (id : string).

Record Env (W : Type) : Type := mkEnv {
  world : W;
  localStorage : Storage;
  sessionStorage : Storage;
  origin : string
}.
Arguments mkEnv {W} _ _ _ _.
Arguments world {W} _.
Arguments localStorage {W} _.
Arguments sessionStorage {W} _.
Arguments origin {W} _.

Inductive Completion (A : Type) : Type :=
| Returned (a : A)
| Thrown (reason : string).
Arguments Returned {A} a.
Arguments Thrown {A} reason.

Record Run (W A : Type) : Type := mkRun {
  final : Env W;
  trace : list Event;
  result : Completion A
}.
Arguments mkRun {W A} _ _ _.
Arguments final {W A} _.
Arguments trace {W A} _.
Arguments result {W A} _.

Definition M (W A : Type) : Type := Env W -> Run W A.

Definition ret {W A} (a : A) : M W A :=
  fun s => mkRun s [] (Returned a).

Definition bind {W A B} (m : M W A) (k : A -> M W B) : M W B :=
  fun s =>
    let r := m s in
    match result r with
    | Returned a =>
        let r' := k a (final r) in
        mkRun (final r') (trace r ++ trace r') (result r')
    | Thrown e => mkRun (final r) (trace r) (Thrown e)
    end.

(** [try { body } catch (error) { handler }]: what the body did before it
    threw stays done. *)
Definition try_catch {W A} (body : M W A) (handler : string -> M W A) : M W A :=
  fun s =>
    let r := body s in
    match result r with
    | Returned a => r
    | Thrown e =>
        let r' := handler e (final r) in
        mkRun (final r') (trace r ++ trace r') (result r')
    end.

Declare Scope js_scope.
Delimit Scope js_scope with js.
Notation "x <- m ;; k" := (bind m (fun x => k))
  (at level 61, m at next level, right associativity) : js_scope.
Notation "m ;;; k" := (bind m (fun _ => k))
  (at level 61, right associativity) : js_scope.
Notation "'try' body 'catch' handler" := (try_catch body (fun _ => handler))
  (at level 62, body at level 61, handler at level 61) : js_scope.
Open Scope js_scope.

Definition get_env {W} : M W (Env W) :=
  fun s => mkRun s [] (Returned s).

Definition emit {W} (e : Event) : M W unit :=
  fun s => mkRun s [e] (Returned tt).

(** [await] of a provider call that is reported in the trace as [c]. *)
Definition await {W A} (c : Call) (op : W -> W * Settled A) : M W A :=
  fun s =>
    let (w, settled) := op (world s) in
    let s' := mkEnv w (localStorage s) (sessionStorage s) (origin s) in
    match settled with
    | Resolved a => mkRun s' [EvCall c false] (Returned a)
    | Rejected reason => mkRun s' [EvCall c true] (Thrown reason)
    end.

(** [Date.now()] *)
Definition Date_now {W} (P : Provider W) : M W Z :=
  fun s =>
    let (w, t) := dateNow P (world s) in
    mkRun (mkEnv w (localStorage s) (sessionStorage s) (origin s)) [] (Returned t).

(** [Promise.all(promises)]: every computation is started; the result is the
    array of their values, or a rejection when any of them throws. *)
Fixpoint Promise_all {W A} (ms : list (M W A)) : M W (list A) :=
  match ms with
  | [] => ret []
  | m :: rest =>
      fun s =>
        let r := m s in
        let rs := Promise_all rest (final r) in
        mkRun (final rs) (trace r ++ trace rs)
          match result r, result rs with
          | Returned a, Returned l => Returned (a :: l)
          | Thrown e, _ => Thrown e
          | Returned _, Thrown e => Thrown e
          end
  end.

(* ------------------------------------------------------------------ *)
(** ** Data model of the engine *)

Inductive Severity : Type := low | medium | high | critical.

(** [a === b] on severities. *)
Definition severity_eqb (a b : Severity) : bool :=
  match a, b with
  | low, low | medium, medium | high, high | critical, critical => true
  | _, _ => false
  end.

(** [{ hasProblem, details? }] *)
Module CheckResult.
Record t := mk {
  hasProblem : bool;
  details : option string
}.
End CheckResult.

(** [{ success, message, details? }] *)
Module FixResult.
Record t := mk {
  success : bool;
  message : string;
  details : option string
}.
End FixResult.

(** [interface AuthProblem]; the field [fix] is [fix_] here. *)
Module AuthProblem.
Record t (W : Type) := mk {
  id : string;
  name : string;
  description : string;
  severity : Severity;
  fix_ : M W FixResult.t;
  check : M W CheckResult.t
}.
Arguments mk {W} _ _ _ _ _ _.
Arguments id {W} _.
Arguments name {W} _.
Arguments description {W} _.
Arguments severity {W} _.
Arguments fix_ {W} _.
Arguments check {W} _.
End AuthProblem.

(** An entry of [problems] and the [summary] of [diagnoseAuthProblems]. *)
Module Diagnosis.
Record entry (W : Type) := mkEntry {
  problem : AuthProblem.t W;
  hasProblem : bool;
  details : option string
}.
Arguments mkEntry {W} _ _ _.
Arguments problem {W} _.
Arguments hasProblem {W} _.
Arguments details {W} _.

Record summary_t := mkSummary {
  total : nat;
  critical : nat;
  high : nat;
  medium : nat;
  low : nat
}.

Record t (W : Type) := mk {
  problems : list (entry W);
  summary : summary_t
}.
Arguments mk {W} _ _.
Arguments problems {W} _.
Arguments summary {W} _.
End Diagnosis.

(** An entry of [applied] and the [summary] of [applyAuthFixes]. *)
Module Fixes.
Record entry (W : Type) := mkEntry {
  problem : AuthProblem.t W;
  success : bool;
  message : string;
  details : option string
}.
Arguments mkEntry {W} _ _ _ _.
Arguments problem {W} _.
Arguments success {W} _.
Arguments message {W} _.
Arguments details {W} _.

Record summary_t := mkSummary {
  total : nat;
  successful : nat;
  failed : nat
}.

Record t (W : Type) := mk {
  applied : list (entry W);
  summary : summary_t
}.
Arguments mk {W} _ _.
Arguments applied {W} _.
Arguments summary {W} _.
End Fixes.

(** [{ success, message }] of [clearAuthData] and [forceSessionRefresh]. *)
Module Status.
Record t := mk {
  success : bool;
  message : string
}.
End Status.

(* ------------------------------------------------------------------ *)
(** ** The problem registry *)

Section Registry.
Context {W : Type} (P : Provider W).

Definition no_problem : CheckResult.t := CheckResult.mk false None.
Definition problem_with (details : string) : CheckResult.t :=
  CheckResult.mk true (Some details).

(** Problem 1: expired or invalid session. *)
Definition sessionExpired_check : M W CheckResult.t :=
  try (
    r <- await GetSession (getSession P) ;;
    match SessionResponse.error r with
    | Some error => ret (problem_with (AuthError.message error))
    | None =>
        match SessionResponse.session r with
        | None => ret (problem_with "Nenhuma sessão ativa encontrada")
        | Some _ => ret no_problem
        end
    end)
  catch ret (problem_with "Erro ao verificar sessão").

Definition sessionExpired_fix : M W FixResult.t :=
  try (
    r <- await RefreshSession (refreshSession P) ;;
    match SessionResponse.error r with
    | Some error =>
        ret (FixResult.mk false "Falha ao renovar sessão"
               (Some (AuthError.message error)))
    | None =>
        match SessionResponse.session r with
        | Some _ => ret (FixResult.mk true "Sessão renovada com sucesso" None)
        | None =>
            ret (FixResult.mk false
                   "Sessão não pôde ser renovada - faça login novamente" None)
        end
    end)
  catch ret (FixResult.mk false "Erro ao renovar sessão" (Some "Erro desconhecido")).

Definition sessionExpiredProblem : AuthProblem.t W :=
  AuthProblem.mk "session_expired" "Sessão Expirada"
    "A sessão do usuário expirou ou se tornou inválida" medium
    sessionExpired_fix sessionExpired_check.

(** Problem 2: invalid access token. *)
Definition invalidToken_check : M W CheckResult.t :=
  try (
    r <- await GetUser (getUser P) ;;
    match UserResponse.error r with
    | Some error =>
        if includes (AuthError.message error) "JWT"
        then ret (problem_with "Token JWT inválido")
        else ret no_problem
    | None => ret no_problem
    end)
  catch ret (problem_with "Erro ao verificar token").

Definition invalidToken_fix : M W FixResult.t :=
  try (
    await SignOut (signOut P) ;;;
    ret (FixResult.mk true "Tokens limpos - faça login novamente" None))
  catch ret (FixResult.mk false "Erro ao limpar tokens" (Some "Erro desconhecido")).

Definition invalidTokenProblem : AuthProblem.t W :=
  AuthProblem.mk "invalid_token" "Token de Acesso Inválido"
    "O token de acesso está inválido ou corrompido" high
    invalidToken_fix invalidToken_check.

(** Problem 3: connectivity. *)
Definition connectivity_check : M W CheckResult.t :=
  try (
    startTime <- Date_now P ;;
    r <- await GetSession (getSession P) ;;
    endTime <- Date_now P ;;
    let responseTime := (endTime - startTime)%Z in
    match SessionResponse.error r with
    | Some error =>
        ret (problem_with ("Erro de conexão: " ++ AuthError.message error))
    | None =>
        if (responseTime >? 5000)%Z
        then ret (problem_with ("Resposta lenta: " ++ show responseTime ++ "ms"))
        else ret no_problem
    end)
  catch ret (problem_with "Falha na conexão com Supabase").

Definition connectivity_fix : M W FixResult.t :=
  try (
    r <- await GetSession (getSession P) ;;
    match SessionResponse.error r with
    | Some error =>
        ret (FixResult.mk false "Falha na reconexão" (Some (AuthError.message error)))
    | None => ret (FixResult.mk true "Conexão restaurada" None)
    end)
  catch ret (FixResult.mk false "Erro na reconexão" (Some "Verifique sua internet")).

Definition connectivityProblem : AuthProblem.t W :=
  AuthProblem.mk "connectivity" "Problemas de Conectividade"
    "Problemas de conexão com o Supabase" high
    connectivity_fix connectivity_check.

(** Problem 4: no profile for the user. *)
Definition missingProfile_check : M W CheckResult.t :=
  try (
    r <- await GetUser (getUser P) ;;
    match UserResponse.user r with
    | None => ret (problem_with "Usuário não autenticado")
    | Some user =>
        q <- await (SelectProfile (User.id user)) (selectProfile P (User.id user)) ;;
        match SelectResponse.error q, SelectResponse.data q with
        | None, Some _ => ret no_problem
        | _, _ => ret (problem_with "Perfil não encontrado no banco")
        end
    end)
  catch ret (problem_with "Erro ao verificar perfil").

Definition missingProfile_fix : M W FixResult.t :=
  try (
    r <- await GetUser (getUser P) ;;
    match UserResponse.user r with
    | None => ret (FixResult.mk false "Usuário não autenticado" None)
    | Some user =>
        let row :=
          Profile.mk (User.id user)
            (or_default (User.email user) "")
            (or_default (User.user_metadata_name user) "Usuário")
            "user" in
        i <- await (InsertProfile row) (insertProfile P row) ;;
        match ErrorResponse.error i with
        | Some error =>
            ret (FixResult.mk false "Erro ao criar perfil"
                   (Some (AuthError.message error)))
        | None => ret (FixResult.mk true "Perfil criado com sucesso" None)
        end
    end)
  catch ret (FixResult.mk false "Erro ao criar perfil" (Some "Erro desconhecido")).

Definition missingProfileProblem : AuthProblem.t W :=
  AuthProblem.mk "missing_profile" "Perfil de Usuário Não Encontrado"
    "O perfil do usuário não existe no banco de dados" medium
    missingProfile_fix missingProfile_check.

(** Problem 5: CORS configuration. *)
Definition isLocalhost (currentOrigin : string) : bool :=
  includes currentOrigin "localhost" || includes currentOrigin "127.0.0.1".

Definition cors_check : M W CheckResult.t :=
  try (
    s <- get_env ;;
    let currentOrigin := origin s in
    if negb (isLocalhost currentOrigin)
    then
      r <- await GetSession (getSession P) ;;
      match SessionResponse.error r with
      | Some error =>
          if includes (AuthError.message error) "CORS"
          then ret (problem_with "Erro de CORS detectado")
          else ret no_problem
      | None => ret no_problem
      end
    else ret no_problem)
  catch ret (problem_with "Erro ao verificar CORS").

Definition cors_fix : M W FixResult.t :=
  ret (FixResult.mk false "CORS deve ser configurado no servidor"
         (Some "Adicione sua origem às configurações de CORS do Supabase")).

Definition corsProblem : AuthProblem.t W :=
  AuthProblem.mk "cors" "Problema de CORS"
    "Configuração incorreta de CORS" medium
    cors_fix cors_check.

(** The list of all problems. *)
Definition authProblems : list (AuthProblem.t W) :=
  [ sessionExpiredProblem;
    invalidTokenProblem;
    connectivityProblem;
    missingProfileProblem;
    corsProblem ].

(* ---------------------------------------------------------------- *)
(** ** Diagnosis and repair *)

(** [problem.check()] and [problem.fix()] as a caller issues them: the
    invocation is visible in the trace, the way a spy records it. *)
Definition invoke_check (problem : AuthProblem.t W) : M W CheckResult.t :=
  emit (EvCheck (AuthProblem.id problem)) ;;; AuthProblem.check problem.

Definition invoke_fix (problem : AuthProblem.t W) : M W FixResult.t :=
  emit (EvFix (AuthProblem.id problem)) ;;; AuthProblem.fix_ problem.

Definition count {A} (f : A -> bool) (l : list A) : nat :=
  List.length (filter f l).

Definition diagnoseAuthProblems : M W (Diagnosis.t W) :=
  results <- Promise_all
    (map (fun problem =>
            check <- invoke_check problem ;;
            ret (Diagnosis.mkEntry problem
                   (CheckResult.hasProblem check) (CheckResult.details check)))
         authProblems) ;;
  let by_severity v :=
    count (fun r => Diagnosis.hasProblem r
                    && severity_eqb (AuthProblem.severity (Diagnosis.problem r)) v)
          results in
  let summary :=
    Diagnosis.mkSummary
      (count (fun r => Diagnosis.hasProblem r) results)
      (by_severity critical)
      (by_severity high)
      (by_severity medium)
      (by_severity low) in
  ret (Diagnosis.mk results summary).

Definition applyAuthFixes : M W (Fixes.t W) :=
  d <- diagnoseAuthProblems ;;
  let problems := Diagnosis.problems d in
  let problemsToFix := filter (fun p => Diagnosis.hasProblem p) problems in
  results <- Promise_all
    (map (fun p =>
            let problem := Diagnosis.problem p in
            fix_ <- invoke_fix problem ;;
            ret (Fixes.mkEntry problem (FixResult.success fix_)
                   (FixResult.message fix_) (FixResult.details fix_)))
         problemsToFix) ;;
  let summary :=
    Fixes.mkSummary
      (List.length results)
      (count (fun r => Fixes.success r) results)
      (count (fun r => negb (Fixes.success r)) results) in
  ret (Fixes.mk results summary).
End Registry.

(* ------------------------------------------------------------------ *)
(** ** Standalone helpers *)

Section Helpers.
Context {W : Type} (P : Provider W).

(** The test of the two loops of [clearAuthData]:
    [key && (key.includes('supabase') || key.includes('auth'))]. *)
Definition isAuthKey (key : string) : bool :=
  truthy key && (includes key "supabase" || includes key "auth").

(** [for (let i = ...; i < storage.length; i++)] with [remaining] iterations
    to go ([storage.length - i]; the body leaves the storage alone). *)
Fixpoint scanKeys (storage : Storage) (i remaining : nat)
    (keysToRemove : list string) : list string :=
  match remaining with
  | O => keysToRemove
  | S remaining' =>
      match StorageOps.key storage i with
      | Some key =>
          if isAuthKey key
          then scanKeys storage (S i) remaining' (keysToRemove ++ [key])
          else scanKeys storage (S i) remaining' keysToRemove
      | None => scanKeys storage (S i) remaining' keysToRemove
      end
  end.

(** [keys.forEach(key => storage.removeItem(key))] *)
Definition removeAll (keys : list string) (storage : Storage) : Storage :=
  fold_left StorageOps.removeItem keys storage.

Definition purge (storage : Storage) : Storage :=
  let keysToRemove := scanKeys storage 0 (StorageOps.length storage) [] in
  removeAll keysToRemove storage.

Definition update_localStorage (f : Storage -> Storage) : M W unit :=
  fun s =>
    mkRun (mkEnv (world s) (f (localStorage s)) (sessionStorage s) (origin s))
      [] (Returned tt).

Definition update_sessionStorage (f : Storage -> Storage) : M W unit :=
  fun s =>
    mkRun (mkEnv (world s) (localStorage s) (f (sessionStorage s)) (origin s))
      [] (Returned tt).

Definition clearAuthData : M W Status.t :=
  try (
    update_localStorage purge ;;;
    update_sessionStorage purge ;;;
    await SignOut (signOut P) ;;;
    ret (Status.mk true "Dados de autenticação limpos com sucesso"))
  catch ret (Status.mk false "Erro ao limpar dados de autenticação").

Definition needsReauthentication : M W bool :=
  try (
    r <- await GetSession (getSession P) ;;
    match SessionResponse.error r with
    | Some _ => ret true
    | None =>
        match SessionResponse.session r with
        | None => ret true
        | Some session =>
            match Session.expires_at session with
            | Some expiresAt =>
                if truthy_num expiresAt
                then
                  ms <- Date_now P ;;
                  let now := (ms / 1000)%Z in
                  let timeUntilExpiry := (expiresAt - now)%Z in
                  if (timeUntilExpiry <? 300)%Z then ret true else ret false
                else ret false
            | None => ret false
            end
        end
    end)
  catch ret true.

Definition forceSessionRefresh : M W Status.t :=
  try (
    r <- await RefreshSession (refreshSession P) ;;
    match SessionResponse.error r with
    | Some _ => ret (Status.mk false "Falha ao renovar sessão")
    | None =>
        match SessionResponse.session r with
        | Some _ => ret (Status.mk true "Sessão renovada com sucesso")
        | None => ret (Status.mk false "Sessão não pôde ser renovada")
        end
    end)
  catch ret (Status.mk false "Erro ao renovar sessão").
End Helpers.

(* ------------------------------------------------------------------ *)
(** ** A scripted provider *)

(** The mock of a test: every operation answers with a canned response, the
    world is the clock in milliseconds, and every remote call takes [latency]
    milliseconds. *)
Module Mock.
Record script := mk {
  onGetSession : Settled SessionResponse.t;
  onGetUser : Settled UserResponse.t;
  onSignOut : Settled ErrorResponse.t;
  onRefreshSession : Settled SessionResponse.t;
  onSelectProfile : string -> Settled SelectResponse.t;
  onInsertProfile : Profile.t -> Settled ErrorResponse.t;
  latency : Z
}.

Definition provider (m : script) : Provider Z := {|
  getSession := fun w => ((w + latency m)%Z, onGetSession m);
  getUser := fun w => ((w + latency m)%Z, onGetUser m);
  signOut := fun w => ((w + latency m)%Z, onSignOut m);
  refreshSession := fun w => ((w + latency m)%Z, onRefreshSession m);
  selectProfile := fun id w => ((w + latency m)%Z, onSelectProfile m id);
  insertProfile := fun row w => ((w + latency m)%Z, onInsertProfile m row);
  dateNow := fun w => (w, w)
|}.

Definition ok_session : Settled SessionResponse.t :=
  Resolved (SessionResponse.mk (Some (Session.mk (Some 1700003600%Z))) None).
Definition no_session : Settled SessionResponse.t :=
  Resolved (SessionResponse.mk None None).
Definition alice : User.t :=
  User.mk "u-1" (Some "alice@example.com") None.
Definition ok_user : Settled UserResponse.t :=
  Resolved (UserResponse.mk (Some alice) None).
Definition no_user : Settled UserResponse.t :=
  Resolved (UserResponse.mk None
              (Some (AuthError.mk "Auth session missing!"))).
Definition ok : Settled ErrorResponse.t :=
  Resolved (ErrorResponse.mk None).

(** A signed-in user with a profile and a fast network. *)
Definition healthy : script :=
  mk ok_session ok_user ok ok_session
     (fun id => Resolved (SelectResponse.mk (Some id) None))
     (fun _ => ok) 20.

(** Nobody is signed in. *)
Definition signed_out : script :=
  mk no_session no_user ok no_session
     (fun _ => Resolved (SelectResponse.mk None
                           (Some (AuthError.mk "JSON object requested, multiple (or no) rows returned"))))
     (fun _ => ok) 20.

(** The network is down: every call rejects. *)
Definition offline : script :=
  mk (Rejected "Failed to fetch") (Rejected "Failed to fetch")
     (Rejected "Failed to fetch") (Rejected "Failed to fetch")
     (fun _ => Rejected "Failed to fetch")
     (fun _ => Rejected "Failed to fetch") 20.

(** The network fails and the client reports it in [error]. *)
Definition unreachable : script :=
  let e := Some (AuthError.mk "Failed to fetch") in
  mk (Resolved (SessionResponse.mk None e))
     (Resolved (UserResponse.mk None e))
     (Resolved (ErrorResponse.mk e))
     (Resolved (SessionResponse.mk None e))
     (fun _ => Resolved (SelectResponse.mk None e))
     (fun _ => Resolved (ErrorResponse.mk e)) 20.

(** The environment of a page served from [origin] at time [now] (in
    milliseconds). *)
Definition page (origin : string) (now : Z) (ls ss : Storage) : Env Z :=
  mkEnv now ls ss origin.
End Mock.

(* ------------------------------------------------------------------ *)
(** ** Observations on a trace *)

(** Some call of the run was rejected: an exception was thrown inside it. *)
Definition is_rejection (e : Event) : bool :=
  match e with
  | EvCall _ true => true
  | _ => false
  end.

Definition thrown_inside (tr : list Event) : bool := existsb is_rejection tr.

Definition is_call (e : Event) : bool :=
  match e with
  | EvCall _ _ => true
  | _ => false
  end.

(** The ids whose [check], respectively [fix], a run invoked, in order. *)
Definition checks_invoked (tr : list Event) : list string :=
  flat_map (fun e => match e with EvCheck id => [id] | _ => [] end) tr.

Definition fixes_invoked (tr : list Event) : list string :=
  flat_map (fun e => match e with EvFix id => [id] | _ => [] end) tr.

(** [s] contains [t] as a substring. *)
Definition contains (s t : string) : Prop :=
  exists before after, s = before ++ t ++ after.

(** The entry of a diagnosis for the problem called [id]. *)
Definition entry_for {W} (id : string) (d : Diagnosis.t W) : option (Diagnosis.entry W) :=
  find (fun e => (AuthProblem.id (Diagnosis.problem e) =? id)%string)
       (Diagnosis.problems d).

(** The bucket of a summary that counts severity [v]. *)
Definition bucket (v : Severity) (sm : Diagnosis.summary_t) : nat :=
  match v with
  | critical => Diagnosis.critical sm
  | high => Diagnosis.high sm
  | medium => Diagnosis.medium sm
  | low => Diagnosis.low sm
  end.

(* ------------------------------------------------------------------ *)
(** ** Notions the properties are stated with *)

(** The page around the provider is untouched: the two storages and the
    origin are what they were. *)
Definition same_page {W} (s s' : Env W) : Prop :=
  localStorage s' = localStorage s /\
  sessionStorage s' = sessionStorage s /\
  origin s' = origin s.

(** What the registry promises about a check: it only talks to the provider,
    it returns, and a rejection inside it yields the generic report. *)
Definition check_contract {W} (generic : string) (m : M W CheckResult.t) : Prop :=
  forall s,
    same_page s (final (m s)) /\
    forallb is_call (trace (m s)) = true /\
    exists r,
      result (m s) = Returned r /\
      (thrown_inside (trace (m s)) = true -> r = CheckResult.mk true (Some generic)).

Definition fix_contract {W} (message : string) (m : M W FixResult.t) : Prop :=
  forall s,
    same_page s (final (m s)) /\
    forallb is_call (trace (m s)) = true /\
    exists r,
      result (m s) = Returned r /\
      (thrown_inside (trace (m s)) = true ->
       FixResult.success r = false /\ FixResult.message r = message).

(** The contract of a registry entry, with the strings of its two [catch]
    blocks. *)
Definition honours {W} (p : AuthProblem.t W) (generic message : string) : Prop :=
  check_contract generic (AuthProblem.check p) /\
  fix_contract message (AuthProblem.fix_ p).

(** The callback of the diagnostic pass and the callback of the fix pass. *)
Definition checkOne {W} (problem : AuthProblem.t W) : M W (Diagnosis.entry W) :=
  check <- invoke_check problem ;;
  ret (Diagnosis.mkEntry problem
         (CheckResult.hasProblem check) (CheckResult.details check)).

Definition fixOne {W} (p : Diagnosis.entry W) : M W (Fixes.entry W) :=
  let problem := Diagnosis.problem p in
  fix_ <- invoke_fix problem ;;
  ret (Fixes.mkEntry problem (FixResult.success fix_)
         (FixResult.message fix_) (FixResult.details fix_)).

(** An entry reports what the check of its problem returned, on the page
    the pass started from. *)
Definition reports {W} (s : Env W) (problem : AuthProblem.t W)
    (e : Diagnosis.entry W) : Prop :=
  Diagnosis.problem e = problem /\
  exists s',
    same_page s s' /\
    result (AuthProblem.check problem s')
    = Returned (CheckResult.mk (Diagnosis.hasProblem e) (Diagnosis.details e)).

Definition checks_well {W} (p : AuthProblem.t W) : Prop :=
  exists generic, check_contract generic (AuthProblem.check p).

Definition fixes_well {W} (p : AuthProblem.t W) : Prop :=
  exists message, fix_contract message (AuthProblem.fix_ p).

(** The summary that [diagnoseAuthProblems] computes from its results. *)
Definition summarize {W} (results : list (Diagnosis.entry W)) : Diagnosis.summary_t :=
  let by_severity v :=
    count (fun r => Diagnosis.hasProblem r
                    && severity_eqb (AuthProblem.severity (Diagnosis.problem r)) v)
          results in
  Diagnosis.mkSummary
    (count (fun r => Diagnosis.hasProblem r) results)
    (by_severity critical) (by_severity high)
    (by_severity medium) (by_severity low).

Definition tally {W} (results : list (Fixes.entry W)) : Fixes.summary_t :=
  Fixes.mkSummary
    (List.length results)
    (count (fun r => Fixes.success r) results)
    (count (fun r => negb (Fixes.success r)) results).


(** A key names the provider or says "auth". *)
Definition mentions_auth (key : string) : bool :=
  includes key "supabase" || includes key "auth".

(** A session whose [expires_at] is [0], fetched without error a thousand
    seconds after the epoch: the expiry lies a thousand seconds in the past. *)
Definition expired_at_epoch : Mock.script :=
  Mock.mk (Resolved (SessionResponse.mk (Some (Session.mk (Some 0%Z))) None))
    Mock.ok_user Mock.ok Mock.ok_session
    (fun id => Resolved (SelectResponse.mk (Some id) None))
    (fun _ => Mock.ok) 20.

(** A session that expires at the second [expiresAt], fetched without
    error. *)
Definition expiring_at (expiresAt : Z) : Mock.script :=
  Mock.mk (Resolved (SessionResponse.mk (Some (Session.mk (Some expiresAt))) None))
    Mock.ok_user Mock.ok Mock.ok_session
    (fun id => Resolved (SelectResponse.mk (Some id) None))
    (fun _ => Mock.ok) 20.

(* ------------------------------------------------------------------ *)
(** ** Notions of the further properties *)

(** A call that only reads from the provider, or the invocation of a
    check. *)
Definition is_read (e : Event) : bool :=
  match e with
  | EvCall GetSession _ | EvCall GetUser _ | EvCall (SelectProfile _) _ => true
  | EvCheck _ => true
  | _ => false
  end.

(** An entry of [applied] reports what the fix of the flagged entry it
    stands for returned, on the page the pass started from. *)
Definition fix_reports {W} (s : Env W) (e : Diagnosis.entry W)
    (a : Fixes.entry W) : Prop :=
  Fixes.problem a = Diagnosis.problem e /\
  exists s',
    same_page s s' /\
    result (AuthProblem.fix_ (Diagnosis.problem e) s')
    = Returned (FixResult.mk (Fixes.success a) (Fixes.message a) (Fixes.details a)).

(** The network is down: whatever the state, every call rejects. *)
Definition all_rejected {W} (P : Provider W) : Prop :=
  forall w,
    (exists w' reason, getSession P w = (w', Rejected reason)) /\
    (exists w' reason, getUser P w = (w', Rejected reason)) /\
    (exists w' reason, signOut P w = (w', Rejected reason)) /\
    (exists w' reason, refreshSession P w = (w', Rejected reason)) /\
    (forall id, exists w' reason, selectProfile P id w = (w', Rejected reason)) /\
    (forall row, exists w' reason, insertProfile P row w = (w', Rejected reason)).

(** The network answers every session fetch with a CORS error. *)
Definition cors_blocked : Mock.script :=
  let e := Some (AuthError.mk "CORS policy: No 'Access-Control-Allow-Origin' header") in
  Mock.mk (Resolved (SessionResponse.mk None e))
    Mock.ok_user Mock.ok Mock.no_session
    (fun id => Resolved (SelectResponse.mk (Some id) None))
    (fun _ => Mock.ok) 20.

(** A diagnosis of the registry of [P] with the given flags and details. *)
Definition diagnosis_of {W} (P : Provider W)
    (found : list (bool * option string)) (sm : Diagnosis.summary_t) : Diagnosis.t W :=
  Diagnosis.mk
    (map (fun pf => Diagnosis.mkEntry (fst pf) (fst (snd pf)) (snd (snd pf)))
         (combine (authProblems P) found))
    sm.
(* ------------------------------------------------------------------ *)
(** ** The handlers of the [AuthFixer] component *)

(** What a handler of the component calls besides the engine: the setters
    of its state, the console, the toasts, [confirm] with the answer of the
    user, and the reload of the page. *)
Inductive UiCall (W : Type) : Type :=
| SetIsRunning (b : bool)
| SetIsFixing (b : bool)
| SetDiagnostics (d : option (Diagnosis.t W))
| SetFixResults (r : option (Fixes.t W))
| ConsoleError (label : string)
| ToastSuccess (message : string)
| ToastError (message : string)
| Confirm (message : string) (answer : bool)
| Reload.
Arguments SetIsRunning {W} b.
Arguments SetIsFixing {W} b.
Arguments SetDiagnostics {W} d.
Arguments SetFixResults {W} r.
Arguments ConsoleError {W} label.
Arguments ToastSuccess {W} message.
Arguments ToastError {W} message.
Arguments Confirm {W} message answer.
Arguments Reload {W}.

(** The run of a handler: the state it ends in, the calls that reached the
    provider and the calls it made on the user interface, in order. *)
Record Handled (W : Type) : Type := mkHandled {
  after : Env W;
  calls : list Event;
  ui : list (UiCall W)
}.
Arguments mkHandled {W} _ _ _.
Arguments after {W} _.
Arguments calls {W} _.
Arguments ui {W} _.

Module AuthFixer.
Section Handlers.
Context {W : Type} (P : Provider W).


Definition confirmation : string :=
  "Tem certeza? Isso irá limpar todos os dados de autenticação e você precisará fazer login novamente.".

(** [answer] is what the user answers to [confirm]. *)
Definition handleClearAuthData (answer : bool) (s : Env W) : Handled W :=
  if negb answer
  then mkHandled s [] [Confirm confirmation answer]
  else
    let r := clearAuthData P s in
    mkHandled (final r) (trace r)
      ([Confirm confirmation answer]
       ++ match result r with
          | Returned result =>
              if Status.success result
              then [ToastSuccess "Dados de autenticação limpos"; Reload]
              else [ToastError "Erro ao limpar dados"]
          | Thrown _ => [ToastError "Erro ao limpar dados de autenticação"]
          end)%list.
End Handlers.
End AuthFixer.

(* ================================================================== *)
(** * Properties *)

(** ** Strings *)

Lemma prefix_iff (t s : string) :
  String.prefix t s = true <-> exists after, s = t ++ after.
Proof.
  revert s; induction t as [|c t IH]; intros s; simpl.
  - split; [intros _; now exists s | intros _; now destruct s].
  - destruct s as [|d s]; simpl.
    + split; [discriminate | intros [after H]; discriminate].
    + destruct (Ascii.ascii_dec c d) as [->|Hne].
      * rewrite IH. split; intros [after H]; exists after.
        -- now rewrite H.
        -- now injection H.
      * split; [discriminate|].
        intros [after H]. injection H as H1 _. congruence.
Qed.

Lemma includes_iff (s t : string) : includes s t = true <-> contains s t.
Proof.
  unfold contains. induction s as [|c s IH]; cbn [includes].
  - rewrite orb_false_r, prefix_iff. split.
    + intros [after H]. now exists "", after.
    + intros [before [after H]]. destruct before; simpl in H.
      * now exists after.
      * discriminate.
  - rewrite orb_true_iff, prefix_iff, IH. split.
    + intros [[after H]|[before [after H]]].
      * now exists "", after.
      * exists (String c before), after. simpl. now rewrite H.
    + intros [before [after H]]. destruct before as [|d before]; simpl in H.
      * left. now exists after.
      * right. injection H as _ H. now exists before, after.
Qed.

Lemma includes_false_iff (s t : string) : includes s t = false <-> ~ contains s t.
Proof.
  rewrite <- includes_iff. destruct (includes s t); split; congruence.
Qed.

(** ** Every check and every fix completes normally *)

(** Run a computation symbolically: split on what the provider answers and
    on every test the code makes. *)
Ltac run_step :=
  cbn [final trace result fst snd app forallb existsb is_call is_rejection
       andb orb negb world localStorage sessionStorage origin].

Ltac run_cases :=
  repeat (run_step;
          match goal with
          | |- context [match ?x with _ => _ end] =>
              lazymatch x with
              | context [match _ with _ => _ end] => fail
              | _ => destruct x
              end
          end).

Ltac unfold_run :=
  unfold try_catch, bind, await, Date_now, get_env, emit, ret,
         problem_with, no_problem, same_page, thrown_inside in *.

Ltac settle :=
  run_step;
  split; [now repeat split |];
  split; [reflexivity |];
  eexists; split; [reflexivity | intros; first [discriminate | auto]].

Section Contracts.
Context {W : Type} (P : Provider W).

Lemma sessionExpired_check_contract :
  check_contract "Erro ao verificar sessão" (sessionExpired_check P).
Proof.
  intros s. unfold sessionExpired_check. unfold_run. run_cases; settle.
Qed.

Lemma sessionExpired_fix_contract :
  fix_contract "Erro ao renovar sessão" (sessionExpired_fix P).
Proof.
  intros s. unfold sessionExpired_fix. unfold_run. run_cases; settle.
Qed.

Lemma invalidToken_check_contract :
  check_contract "Erro ao verificar token" (invalidToken_check P).
Proof.
  intros s. unfold invalidToken_check. unfold_run. run_cases; settle.
Qed.

Lemma invalidToken_fix_contract :
  fix_contract "Erro ao limpar tokens" (invalidToken_fix P).
Proof.
  intros s. unfold invalidToken_fix. unfold_run. run_cases; settle.
Qed.

Lemma connectivity_check_contract :
  check_contract "Falha na conexão com Supabase" (connectivity_check P).
Proof.
  intros s. unfold connectivity_check. unfold_run. run_cases; settle.
Qed.

Lemma connectivity_fix_contract :
  fix_contract "Erro na reconexão" (connectivity_fix P).
Proof.
  intros s. unfold connectivity_fix. unfold_run. run_cases; settle.
Qed.

Lemma missingProfile_check_contract :
  check_contract "Erro ao verificar perfil" (missingProfile_check P).
Proof.
  intros s. unfold missingProfile_check. unfold_run. run_cases; settle.
Qed.

Lemma missingProfile_fix_contract :
  fix_contract "Erro ao criar perfil" (missingProfile_fix P).
Proof.
  intros s. unfold missingProfile_fix. unfold_run. run_cases; settle.
Qed.

Lemma cors_check_contract :
  check_contract "Erro ao verificar CORS" (cors_check P).
Proof.
  intros s. unfold cors_check. unfold_run. run_cases; settle.
Qed.

Lemma cors_fix_contract :
  fix_contract "CORS deve ser configurado no servidor" (@cors_fix W).
Proof.
  intros s. unfold cors_fix. unfold_run. run_cases; settle.
Qed.

Lemma registry_contracts (p : AuthProblem.t W) :
  In p (authProblems P) ->
  exists generic message, message <> "" /\ honours p generic message.
Proof.
  unfold authProblems, honours.
  intros [<-|[<-|[<-|[<-|[<-|[]]]]]]; cbn [AuthProblem.check AuthProblem.fix_
    sessionExpiredProblem invalidTokenProblem connectivityProblem
    missingProfileProblem corsProblem].
  - exists "Erro ao verificar sessão", "Erro ao renovar sessão".
    split; [discriminate|].
    split; [apply sessionExpired_check_contract | apply sessionExpired_fix_contract].
  - exists "Erro ao verificar token", "Erro ao limpar tokens".
    split; [discriminate|].
    split; [apply invalidToken_check_contract | apply invalidToken_fix_contract].
  - exists "Falha na conexão com Supabase", "Erro na reconexão".
    split; [discriminate|].
    split; [apply connectivity_check_contract | apply connectivity_fix_contract].
  - exists "Erro ao verificar perfil", "Erro ao criar perfil".
    split; [discriminate|].
    split; [apply missingProfile_check_contract | apply missingProfile_fix_contract].
  - exists "Erro ao verificar CORS", "CORS deve ser configurado no servidor".
    split; [discriminate|].
    split; [apply cors_check_contract | apply cors_fix_contract].
Qed.
End Contracts.

(** ** The two passes *)

Lemma same_page_refl {W} (s : Env W) : same_page s s.
Proof. now repeat split. Qed.

Lemma same_page_trans {W} (s1 s2 s3 : Env W) :
  same_page s1 s2 -> same_page s2 s3 -> same_page s1 s3.
Proof.
  unfold same_page. intros (H1 & H2 & H3) (H4 & H5 & H6).
  repeat split; congruence.
Qed.

Lemma calls_invoke_nothing (tr : list Event) :
  forallb is_call tr = true -> checks_invoked tr = [] /\ fixes_invoked tr = [].
Proof.
  induction tr as [|e tr IH]; simpl; [easy|].
  rewrite andb_true_iff. intros [He Htr].
  destruct e; try discriminate. simpl. now apply IH.
Qed.

Lemma checks_invoked_app (a b : list Event) :
  checks_invoked (a ++ b) = (checks_invoked a ++ checks_invoked b)%list.
Proof. apply flat_map_app. Qed.

Lemma fixes_invoked_app (a b : list Event) :
  fixes_invoked (a ++ b) = (fixes_invoked a ++ fixes_invoked b)%list.
Proof. apply flat_map_app. Qed.

Lemma bind_returned {W A B} (m : M W A) (k : A -> M W B) (s : Env W) (a : A) :
  result (m s) = Returned a ->
  final (bind m k s) = final (k a (final (m s))) /\
  trace (bind m k s) = (trace (m s) ++ trace (k a (final (m s))))%list /\
  result (bind m k s) = result (k a (final (m s))).
Proof. intros H. unfold bind. now rewrite H. Qed.

Lemma bind_ret_returned {W A B} (m : M W A) (f : A -> B) (s : Env W) (a : A) :
  result (m s) = Returned a ->
  final (bind m (fun x => ret (f x)) s) = final (m s) /\
  trace (bind m (fun x => ret (f x)) s) = trace (m s) /\
  result (bind m (fun x => ret (f x)) s) = Returned (f a).
Proof.
  intros H. unfold bind, ret. rewrite H.
  cbn [final trace result]. now rewrite app_nil_r.
Qed.

Section Passes.
Context {W : Type} (P : Provider W).

Lemma checkOne_run (p : AuthProblem.t W) (s : Env W) (c : CheckResult.t) :
  result (AuthProblem.check p s) = Returned c ->
  checkOne p s
  = mkRun (final (AuthProblem.check p s))
      (EvCheck (AuthProblem.id p) :: trace (AuthProblem.check p s))
      (Returned (Diagnosis.mkEntry p (CheckResult.hasProblem c)
                   (CheckResult.details c))).
Proof.
  intros Hc. unfold checkOne, invoke_check, bind, emit, ret.
  cbn [final trace result app]. rewrite Hc.
  cbn [final trace result app]. now rewrite app_nil_r.
Qed.

Lemma fixOne_run (e : Diagnosis.entry W) (s : Env W) (f : FixResult.t) :
  let p := Diagnosis.problem e in
  result (AuthProblem.fix_ p s) = Returned f ->
  fixOne e s
  = mkRun (final (AuthProblem.fix_ p s))
      (EvFix (AuthProblem.id p) :: trace (AuthProblem.fix_ p s))
      (Returned (Fixes.mkEntry p (FixResult.success f) (FixResult.message f)
                   (FixResult.details f))).
Proof.
  intros p Hf. unfold fixOne, invoke_fix, bind, emit, ret. fold p.
  cbn [final trace result app]. rewrite Hf.
  cbn [final trace result app]. now rewrite app_nil_r.
Qed.

Lemma check_pass (ps : list (AuthProblem.t W)) :
  Forall checks_well ps ->
  forall s,
    let r := Promise_all (map checkOne ps) s in
    same_page s (final r) /\
    checks_invoked (trace r) = map AuthProblem.id ps /\
    fixes_invoked (trace r) = [] /\
    exists l, result r = Returned l /\ Forall2 (reports s) ps l.
Proof.
  induction 1 as [|p ps [generic Hp] _ IH]; intros s; cbn zeta.
  - simpl. repeat split; try apply same_page_refl. exists []. now split.
  - cbn [map Promise_all].
    destruct (Hp s) as (Hpage & Hcalls & c & Hc & _).
    rewrite (checkOne_run p s c Hc). cbn [final trace result].
    set (s1 := final (AuthProblem.check p s)) in *.
    destruct (IH s1) as (Hpage' & Hchecks & Hfixes & l & Hl & Hrep).
    destruct (calls_invoke_nothing _ Hcalls) as [Hc0 Hf0].
    split; [eapply same_page_trans; eassumption|].
    split.
    { change (checks_invoked
                (([EvCheck (AuthProblem.id p)] ++ trace (AuthProblem.check p s))
                 ++ trace (Promise_all (map checkOne ps) s1))
              = AuthProblem.id p :: map AuthProblem.id ps).
      rewrite !checks_invoked_app, Hc0, Hchecks. reflexivity. }
    split.
    { change (fixes_invoked
                (([EvCheck (AuthProblem.id p)] ++ trace (AuthProblem.check p s))
                 ++ trace (Promise_all (map checkOne ps) s1))
              = []).
      rewrite !fixes_invoked_app, Hf0, Hfixes. reflexivity. }
    rewrite Hl. eexists; split; [reflexivity|].
    constructor.
    + split; [reflexivity|]. exists s. split; [apply same_page_refl|].
      cbn [Diagnosis.hasProblem Diagnosis.details]. rewrite Hc. now destruct c.
    + eapply Forall2_impl; [|exact Hrep].
      intros q e [Hq (s' & Hs' & He)]. split; [exact Hq|].
      exists s'. split; [|exact He].
      eapply same_page_trans; eassumption.
Qed.

Lemma fix_pass (todo : list (Diagnosis.entry W)) :
  Forall (fun e => fixes_well (Diagnosis.problem e)) todo ->
  forall s,
    let r := Promise_all (map fixOne todo) s in
    same_page s (final r) /\
    checks_invoked (trace r) = [] /\
    fixes_invoked (trace r)
    = map (fun e => AuthProblem.id (Diagnosis.problem e)) todo /\
    exists l,
      result r = Returned l /\
      map Fixes.problem l = map Diagnosis.problem todo.
Proof.
  induction 1 as [|e todo [message He] _ IH]; intros s; cbn zeta.
  - simpl. repeat split; try apply same_page_refl. exists []. now split.
  - cbn [map Promise_all].
    destruct (He s) as (Hpage & Hcalls & f & Hf & _).
    rewrite (fixOne_run e s f Hf). cbn [final trace result].
    set (p := Diagnosis.problem e) in *.
    set (s1 := final (AuthProblem.fix_ p s)) in *.
    destruct (IH s1) as (Hpage' & Hchecks & Hfixes & l & Hl & Hmap).
    destruct (calls_invoke_nothing _ Hcalls) as [Hc0 Hf0].
    split; [eapply same_page_trans; eassumption|].
    split.
    { change (checks_invoked
                (([EvFix (AuthProblem.id p)] ++ trace (AuthProblem.fix_ p s))
                 ++ trace (Promise_all (map fixOne todo) s1))
              = []).
      rewrite !checks_invoked_app, Hc0, Hchecks. reflexivity. }
    split.
    { change (fixes_invoked
                (([EvFix (AuthProblem.id p)] ++ trace (AuthProblem.fix_ p s))
                 ++ trace (Promise_all (map fixOne todo) s1))
              = AuthProblem.id p
                :: map (fun e => AuthProblem.id (Diagnosis.problem e)) todo).
      rewrite !fixes_invoked_app, Hf0, Hfixes. reflexivity. }
    rewrite Hl. eexists; split; [reflexivity|].
    cbn [map Fixes.problem]. now rewrite Hmap.
Qed.
Lemma registry_checks_well : Forall checks_well (authProblems P).
Proof.
  apply Forall_forall. intros p Hp.
  destruct (registry_contracts P p Hp) as (generic & message & _ & Hc & _).
  now exists generic.
Qed.

Lemma registry_fixes_well : Forall fixes_well (authProblems P).
Proof.
  apply Forall_forall. intros p Hp.
  destruct (registry_contracts P p Hp) as (generic & message & _ & _ & Hf).
  now exists message.
Qed.

Lemma diagnose_unfold :
  diagnoseAuthProblems P
  = (results <- Promise_all (map checkOne (authProblems P)) ;;
     ret (Diagnosis.mk results (summarize results))).
Proof. reflexivity. Qed.

Lemma apply_unfold :
  applyAuthFixes P
  = (d <- diagnoseAuthProblems P ;;
     results <- Promise_all
       (map fixOne (filter (fun p => Diagnosis.hasProblem p)
                      (Diagnosis.problems d))) ;;
     ret (Fixes.mk results (tally results))).
Proof. reflexivity. Qed.

Lemma diagnose_run (s : Env W) :
  same_page s (final (diagnoseAuthProblems P s)) /\
  checks_invoked (trace (diagnoseAuthProblems P s))
  = map AuthProblem.id (authProblems P) /\
  fixes_invoked (trace (diagnoseAuthProblems P s)) = [] /\
  exists l,
    result (diagnoseAuthProblems P s) = Returned (Diagnosis.mk l (summarize l)) /\
    Forall2 (reports s) (authProblems P) l.
Proof.
  destruct (check_pass (authProblems P) registry_checks_well s)
    as (Hpage & Hchecks & Hfixes & l & Hl & Hrep).
  rewrite diagnose_unfold.
  destruct (bind_ret_returned _
              (fun results => Diagnosis.mk results (summarize results)) s l Hl)
    as (Hf & Ht & Hr).
  rewrite Hf, Ht, Hr.
  split; [exact Hpage|]. split; [exact Hchecks|]. split; [exact Hfixes|].
  exists l. split; [reflexivity | exact Hrep].
Qed.

Lemma reports_problems (s : Env W) (ps : list (AuthProblem.t W))
    (l : list (Diagnosis.entry W)) :
  Forall2 (reports s) ps l -> map Diagnosis.problem l = ps.
Proof.
  induction 1 as [|p e ps l [Hp _] _ IH]; simpl; [reflexivity|].
  now rewrite Hp, IH.
Qed.

Lemma apply_run (s : Env W) :
  exists l tr_fix applied,
    result (diagnoseAuthProblems P s) = Returned (Diagnosis.mk l (summarize l)) /\
    Forall2 (reports s) (authProblems P) l /\
    trace (applyAuthFixes P s)
    = (trace (diagnoseAuthProblems P s) ++ tr_fix)%list /\
    checks_invoked tr_fix = [] /\
    fixes_invoked tr_fix
    = map (fun e => AuthProblem.id (Diagnosis.problem e))
        (filter (fun p => Diagnosis.hasProblem p) l) /\
    result (applyAuthFixes P s) = Returned (Fixes.mk applied (tally applied)) /\
    map Fixes.problem applied
    = map Diagnosis.problem (filter (fun p => Diagnosis.hasProblem p) l).
Proof.
  destruct (diagnose_run s) as (_ & _ & _ & l & Hl & Hrep).
  assert (Hwell : Forall (fun e => fixes_well (Diagnosis.problem e))
                    (filter (fun p => Diagnosis.hasProblem p) l)).
  { apply Forall_forall. intros e He.
    apply filter_In in He as [He _].
    pose proof registry_fixes_well as Hreg.
    rewrite Forall_forall in Hreg. apply Hreg.
    rewrite <- (reports_problems s _ _ Hrep). now apply in_map. }
  destruct (fix_pass _ Hwell (final (diagnoseAuthProblems P s)))
    as (_ & Hchecks & Hfixes & applied & Ha & Hmap).
  destruct (bind_ret_returned _ (fun results => Fixes.mk results (tally results))
              _ applied Ha) as (_ & Ht2 & Hr2).
  destruct (bind_returned (diagnoseAuthProblems P)
              (fun d => results <- Promise_all
                 (map fixOne (filter (fun p => Diagnosis.hasProblem p)
                                (Diagnosis.problems d))) ;;
               ret (Fixes.mk results (tally results)))
              s _ Hl) as (_ & Ht1 & Hr1).
  cbv beta in Ht1, Hr1. cbn [Diagnosis.problems] in Ht1, Hr1.
  rewrite Ht2 in Ht1. rewrite Hr2 in Hr1.
  rewrite <- apply_unfold in Ht1, Hr1.
  exists l, (trace (Promise_all
                      (map fixOne (filter (fun p => Diagnosis.hasProblem p) l))
                      (final (diagnoseAuthProblems P s)))),
    applied.
  split; [exact Hl|]. split; [exact Hrep|]. split; [exact Ht1|].
  split; [exact Hchecks|]. split; [exact Hfixes|]. split; [exact Hr1 | exact Hmap].
Qed.
End Passes.



Lemma filter_partition_length {A} (f : A -> bool) (l : list A) :
  List.length (filter f l) + List.length (filter (fun x => negb (f x)) l)
  = List.length l.
Proof.
  induction l as [|x l IH]; simpl; [reflexivity|].
  destruct (f x); simpl; lia.
Qed.

Section Aggregates.
Context {W : Type} (P : Provider W).



(** C3. For every behaviour of the provider, [diagnoseAuthProblems]
    returns; its [problems] are the registered problems, one entry each,
    in registry order (session_expired, invalid_token, connectivity,
    missing_profile, cors); [summary.total] is the number of entries with
    [hasProblem = true] and every severity bucket is the number of such
    entries whose problem has that severity. *)
Theorem diagnoseAuthProblems_order_and_summary (s : Env W) :
  exists d,
    result (diagnoseAuthProblems P s) = Returned d /\
    map Diagnosis.problem (Diagnosis.problems d) = authProblems P /\
    map (fun e => AuthProblem.id (Diagnosis.problem e)) (Diagnosis.problems d)
    = ["session_expired"; "invalid_token"; "connectivity"; "missing_profile"; "cors"] /\
    Diagnosis.total (Diagnosis.summary d)
    = List.length (filter (fun e => Diagnosis.hasProblem e) (Diagnosis.problems d)) /\
    forall v,
      bucket v (Diagnosis.summary d)
      = List.length
          (filter (fun e => Diagnosis.hasProblem e
                            && severity_eqb (AuthProblem.severity (Diagnosis.problem e)) v)
                  (Diagnosis.problems d)).
Proof.
  destruct (diagnose_run P s) as (_ & _ & _ & l & Hl & Hrep).
  pose proof (reports_problems s _ _ Hrep) as Hps.
  exists (Diagnosis.mk l (summarize l)).
  split; [exact Hl|].
  cbn [Diagnosis.problems Diagnosis.summary].
  split; [exact Hps|].
  split.
  { rewrite <- (map_map Diagnosis.problem AuthProblem.id), Hps. reflexivity. }
  split; [reflexivity|].
  intros v. destruct v; reflexivity.
Qed.


(** C7. After every call of [applyAuthFixes] the summary counts the
    [applied] entries: [total] is their number, [successful] the number
    with [success = true], [failed] the number with [success = false], and
    [successful + failed = total]. *)
Theorem applyAuthFixes_summary_adds_up (s : Env W) :
  exists a,
    result (applyAuthFixes P s) = Returned a /\
    let sm := Fixes.summary a in
    Fixes.total sm = List.length (Fixes.applied a) /\
    Fixes.successful sm
    = List.length (filter (fun r => Fixes.success r) (Fixes.applied a)) /\
    Fixes.failed sm
    = List.length (filter (fun r => negb (Fixes.success r)) (Fixes.applied a)) /\
    Fixes.successful sm + Fixes.failed sm = Fixes.total sm.
Proof.
  destruct (apply_run P s) as (l & tr_fix & applied & _ & _ & _ & _ & _ & Ha & _).
  exists (Fixes.mk applied (tally applied)).
  split; [exact Ha|].
  cbn [Fixes.summary Fixes.applied tally Fixes.total Fixes.successful Fixes.failed].
  unfold count.
  split; [reflexivity|]. split; [reflexivity|]. split; [reflexivity|].
  apply filter_partition_length.
Qed.
End Aggregates.

(** ** Checks and fixes never throw *)

(** C1. For every problem of the registry and every behaviour of the
    provider, [check] and [fix] return and never throw.  When a provider
    call rejects inside [check], the check reports [hasProblem = true] with a
    details string that is fixed for the problem; when a provider call
    rejects inside [fix], the fix reports [success = false] with a message,
    fixed for the problem and not empty. *)
Theorem check_and_fix_never_throw {W} (P : Provider W) (p : AuthProblem.t W) :
  In p (authProblems P) ->
  exists generic message,
    message <> "" /\
    forall s,
      (exists c,
          result (AuthProblem.check p s) = Returned c /\
          (thrown_inside (trace (AuthProblem.check p s)) = true ->
           CheckResult.hasProblem c = true /\
           CheckResult.details c = Some generic)) /\
      (exists f,
          result (AuthProblem.fix_ p s) = Returned f /\
          (thrown_inside (trace (AuthProblem.fix_ p s)) = true ->
           FixResult.success f = false /\
           FixResult.message f = message)).
Proof.
  intros Hp.
  destruct (registry_contracts P p Hp) as (generic & message & Hne & Hc & Hf).
  exists generic, message. split; [exact Hne|].
  intros s. split.
  - destruct (Hc s) as (_ & _ & c & Hres & Hthrown).
    exists c. split; [exact Hres|].
    intros H. rewrite (Hthrown H). now split.
  - destruct (Hf s) as (_ & _ & f & Hres & Hthrown).
    exists f. split; [exact Hres | exact Hthrown].
Qed.

(** The registry entry of [missing_profile] on a network that is down. *)
Lemma check_and_fix_never_throw_witness :
  let P := Mock.provider Mock.offline in
  In (missingProfileProblem P) (authProblems P) /\
  exists generic message,
    message <> "" /\
    forall s,
      (exists c,
          result (AuthProblem.check (missingProfileProblem P) s) = Returned c /\
          (thrown_inside (trace (AuthProblem.check (missingProfileProblem P) s)) = true ->
           CheckResult.hasProblem c = true /\
           CheckResult.details c = Some generic)) /\
      (exists f,
          result (AuthProblem.fix_ (missingProfileProblem P) s) = Returned f /\
          (thrown_inside (trace (AuthProblem.fix_ (missingProfileProblem P) s)) = true ->
           FixResult.success f = false /\
           FixResult.message f = message)).
Proof.
  assert (H : In (missingProfileProblem (Mock.provider Mock.offline))
                 (authProblems (Mock.provider Mock.offline))).
  { simpl. right. right. right. left. reflexivity. }
  split; [exact H|].
  exact (check_and_fix_never_throw (Mock.provider Mock.offline) _ H).
Defined.

(** ** Probing is pessimistic only in part *)

(** Run a computation along the answers that the hypotheses fix, and split
    on whatever else the code tests. *)
Ltac run_along :=
  repeat (run_step;
          match goal with
          | H : ?x = _ |- context [match ?x with _ => _ end] => rewrite H
          | |- context [match ?x with _ => _ end] =>
              lazymatch x with
              | context [match _ with _ => _ end] => fail
              | _ => destruct x eqn:?
              end
          end);
  run_step.

(** C4, as the code has it.  A provider call that rejects makes every
    check of the registry report [hasProblem = true].  A provider call that
    returns an error result makes [session_expired] and [connectivity]
    report a problem, and [missing_profile] too when no user comes back or
    when the profile query returns the error; [invalid_token] reports a
    problem exactly when the message of the error contains "JWT", and [cors]
    exactly when it contains "CORS", on an origin that is not localhost-like:
    on a localhost-like origin [cors] calls nothing and reports no problem. *)
Theorem checks_fail_closed_by_problem {W} (P : Provider W) (s : Env W) :
  (forall p,
      In p (authProblems P) ->
      thrown_inside (trace (AuthProblem.check p s)) = true ->
      exists c, result (AuthProblem.check p s) = Returned c /\
                CheckResult.hasProblem c = true) /\
  (forall w r e,
      getSession P (world s) = (w, Resolved r) ->
      SessionResponse.error r = Some e ->
      exists c, result (sessionExpired_check P s) = Returned c /\
                CheckResult.hasProblem c = true) /\
  (forall w r e,
      getSession P (fst (dateNow P (world s))) = (w, Resolved r) ->
      SessionResponse.error r = Some e ->
      exists c, result (connectivity_check P s) = Returned c /\
                CheckResult.hasProblem c = true) /\
  (forall w r,
      getUser P (world s) = (w, Resolved r) ->
      UserResponse.user r = None ->
      exists c, result (missingProfile_check P s) = Returned c /\
                CheckResult.hasProblem c = true) /\
  (forall w r user w' q e,
      getUser P (world s) = (w, Resolved r) ->
      UserResponse.user r = Some user ->
      selectProfile P (User.id user) w = (w', Resolved q) ->
      SelectResponse.error q = Some e ->
      exists c, result (missingProfile_check P s) = Returned c /\
                CheckResult.hasProblem c = true) /\
  (forall w r e,
      getUser P (world s) = (w, Resolved r) ->
      UserResponse.error r = Some e ->
      exists c, result (invalidToken_check P s) = Returned c /\
                CheckResult.hasProblem c = includes (AuthError.message e) "JWT") /\
  (forall w r e,
      isLocalhost (origin s) = false ->
      getSession P (world s) = (w, Resolved r) ->
      SessionResponse.error r = Some e ->
      exists c, result (cors_check P s) = Returned c /\
                CheckResult.hasProblem c = includes (AuthError.message e) "CORS") /\
  (isLocalhost (origin s) = true ->
   trace (cors_check P s) = [] /\
   result (cors_check P s) = Returned (CheckResult.mk false None)).
Proof.
  split.
  { intros p Hp Hthrown.
    destruct (registry_contracts P p Hp) as (generic & message & _ & Hc & _).
    destruct (Hc s) as (_ & _ & c & Hres & Hgen).
    exists c. split; [exact Hres|]. now rewrite (Hgen Hthrown). }
  split.
  { intros w r e Hcall He. unfold sessionExpired_check. unfold_run.
    run_along; eexists; split; reflexivity || congruence. }
  split.
  { intros w r e Hcall He. unfold connectivity_check. unfold_run.
    destruct (dateNow P (world s)) as [w0 t0]. cbn [fst] in Hcall.
    run_along; eexists; split; reflexivity || congruence. }
  split.
  { intros w r Hcall Hu. unfold missingProfile_check. unfold_run.
    run_along; eexists; split; reflexivity || congruence. }
  split.
  { intros w r user w' q e Hcall Hu Hsel He. unfold missingProfile_check. unfold_run.
    rewrite Hcall. run_step. rewrite Hu. run_step. rewrite Hsel. run_step.
    rewrite He. run_step. eexists; split; reflexivity. }
  split.
  { intros w r e Hcall He. unfold invalidToken_check. unfold_run.
    rewrite Hcall. run_step. rewrite He.
    destruct (includes (AuthError.message e) "JWT"); run_step;
      eexists; split; reflexivity. }
  split.
  { intros w r e Hlocal Hcall He. unfold cors_check. unfold_run.
    run_step. rewrite Hlocal. run_step. rewrite Hcall. run_step. rewrite He.
    destruct (includes (AuthError.message e) "CORS"); run_step;
      eexists; split; reflexivity. }
  intros Hlocal. unfold cors_check. unfold_run.
  run_step. rewrite Hlocal. run_step. split; reflexivity.
Qed.

(** C4 does not hold as it is stated.  The network fails and the client
    reports it in [error], on a page that is not served from localhost:
    [invalid_token] and [cors] see the error result and still report no
    problem. *)
Lemma network_error_not_reported :
  let P := Mock.provider Mock.unreachable in
  let s := Mock.page "https://app.example.com" 1700000000000 [] [] in
  let failure := Some (AuthError.mk "Failed to fetch") in
  In (invalidTokenProblem P) (authProblems P) /\
  In (corsProblem P) (authProblems P) /\
  snd (getUser P (world s)) = Resolved (UserResponse.mk None failure) /\
  snd (getSession P (world s)) = Resolved (SessionResponse.mk None failure) /\
  trace (AuthProblem.check (invalidTokenProblem P) s) = [EvCall GetUser false] /\
  result (AuthProblem.check (invalidTokenProblem P) s)
  = Returned (CheckResult.mk false None) /\
  trace (AuthProblem.check (corsProblem P) s) = [EvCall GetSession false] /\
  result (AuthProblem.check (corsProblem P) s)
  = Returned (CheckResult.mk false None).
Proof.
  cbv zeta. split; [simpl; tauto|]. split; [simpl; tauto|].
  repeat split; vm_compute; reflexivity.
Qed.

Lemma checks_fail_closed_by_problem_witness :
  let P := Mock.provider Mock.unreachable in
  let s := Mock.page "https://app.example.com" 1700000000000 [] [] in
  exists c, result (sessionExpired_check P s) = Returned c /\
            CheckResult.hasProblem c = true.
Proof.
  cbv zeta.
  refine (proj1 (proj2 (checks_fail_closed_by_problem
                          (Mock.provider Mock.unreachable)
                          (Mock.page "https://app.example.com" 1700000000000 [] [])))
                (1700000000020)%Z
                (SessionResponse.mk None (Some (AuthError.mk "Failed to fetch")))
                (AuthError.mk "Failed to fetch") _ _); reflexivity.
Defined.

(** ** Reauthentication *)

Section Reauthentication.
Context {W : Type} (P : Provider W).

(** What [needsReauthentication] answers, in terms of what the session
    fetch and the clock answer. *)
Lemma needsReauthentication_run (s : Env W) :
  result (needsReauthentication P s)
  = Returned
      match getSession P (world s) with
      | (_, Rejected _) => true
      | (w, Resolved r) =>
          match SessionResponse.error r, SessionResponse.session r with
          | Some _, _ => true
          | None, None => true
          | None, Some session =>
              match Session.expires_at session with
              | None => false
              | Some expiresAt =>
                  truthy_num expiresAt
                  && (expiresAt - snd (dateNow P w) / 1000 <? 300)%Z
              end
          end
      end.
Proof.
  unfold needsReauthentication. unfold_run. run_along; reflexivity.
Qed.

(** C9. When the session fetch succeeds with a session that carries no
    [expires_at], [needsReauthentication] returns false. *)
Theorem needsReauthentication_without_expiry (s : Env W) (w : W) :
  getSession P (world s)
  = (w, Resolved (SessionResponse.mk (Some (Session.mk None)) None)) ->
  result (needsReauthentication P s) = Returned false.
Proof.
  intros H. rewrite needsReauthentication_run, H. reflexivity.
Qed.

(** C5, as the code has it.  [needsReauthentication] returns true when
    the session fetch rejects or returns an error, and true when there is no
    session.  The current time is [Date.now()] rounded down to whole seconds:
    with a session whose expiry is not [0], it returns true when the expiry
    is less than 300 seconds after that rounded time.  It returns false when
    the expiry is more than 300 seconds after the current time. *)
Theorem needsReauthentication_floored_rule (s : Env W) :
  (forall w reason,
      getSession P (world s) = (w, Rejected reason) ->
      result (needsReauthentication P s) = Returned true) /\
  (forall w r e,
      getSession P (world s) = (w, Resolved r) ->
      SessionResponse.error r = Some e ->
      result (needsReauthentication P s) = Returned true) /\
  (forall w r,
      getSession P (world s) = (w, Resolved r) ->
      SessionResponse.session r = None ->
      result (needsReauthentication P s) = Returned true) /\
  (forall w expiresAt,
      getSession P (world s)
      = (w, Resolved (SessionResponse.mk (Some (Session.mk (Some expiresAt))) None)) ->
      expiresAt <> 0%Z ->
      (expiresAt - snd (dateNow P w) / 1000 < 300)%Z ->
      result (needsReauthentication P s) = Returned true) /\
  (forall w expiresAt,
      getSession P (world s)
      = (w, Resolved (SessionResponse.mk (Some (Session.mk (Some expiresAt))) None)) ->
      (1000 * expiresAt - snd (dateNow P w) > 300 * 1000)%Z ->
      result (needsReauthentication P s) = Returned false).
Proof.
  repeat split; intros; rewrite needsReauthentication_run.
  - now rewrite H.
  - rewrite H, H0. reflexivity.
  - rewrite H, H0. now destruct (SessionResponse.error r).
  - rewrite H. cbn [SessionResponse.error SessionResponse.session Session.expires_at].
    unfold truthy_num.
    apply Z.eqb_neq in H0. rewrite H0.
    apply Z.ltb_lt in H1. rewrite H1. reflexivity.
  - rewrite H. cbn [SessionResponse.error SessionResponse.session Session.expires_at].
    assert (Hge : (expiresAt - snd (dateNow P w) / 1000 <? 300)%Z = false).
    { apply Z.ltb_ge.
      pose proof (Z.div_mod (snd (dateNow P w)) 1000 ltac:(lia)) as Hdiv.
      pose proof (Z.mod_pos_bound (snd (dateNow P w)) 1000 ltac:(lia)) as Hmod.
      lia. }
    rewrite Hge. now rewrite andb_false_r.
Qed.
End Reauthentication.

(** C5 does not hold as it is stated.  The session expires 299001
    milliseconds after the current time, less than 300 seconds, and
    [needsReauthentication] returns false: the clock is rounded down to
    1700000000 seconds, which leaves 300 seconds. *)
Lemma needsReauthentication_under_five_minutes :
  let P := Mock.provider (expiring_at 1700000300) in
  let s := Mock.page "https://app.example.com" 1700000000979 [] [] in
  let now_ms := snd (dateNow P (fst (getSession P (world s)))) in
  snd (getSession P (world s))
  = Resolved (SessionResponse.mk (Some (Session.mk (Some 1700000300%Z))) None) /\
  now_ms = 1700000000999%Z /\
  (0 < 1000 * 1700000300 - now_ms < 300 * 1000)%Z /\
  result (needsReauthentication P s) = Returned false.
Proof.
  cbv zeta. split; [reflexivity|]. split; [reflexivity|].
  split; [vm_compute; split; reflexivity|].
  vm_compute. reflexivity.
Qed.

Lemma needsReauthentication_floored_rule_witness :
  result (needsReauthentication (Mock.provider (expiring_at 1700000200))
            (Mock.page "https://app.example.com" 1700000000000 [] []))
  = Returned true.
Proof.
  refine (proj1 (proj2 (proj2 (proj2
            (needsReauthentication_floored_rule
               (Mock.provider (expiring_at 1700000200))
               (Mock.page "https://app.example.com" 1700000000000 [] [])))))
            (1700000000020)%Z (1700000200)%Z _ _ _).
  - reflexivity.
  - discriminate.
  - vm_compute. reflexivity.
Defined.

(** The guard [if (expiresAt)] skips the expiry [0] as it skips a missing
    one: an expiry of [0], a thousand seconds in the past, gives false. *)
Lemma needsReauthentication_zero_expiry :
  let P := Mock.provider expired_at_epoch in
  let s := Mock.page "https://app.example.com" 1000000 [] [] in
  snd (getSession P (world s))
  = Resolved (SessionResponse.mk (Some (Session.mk (Some 0%Z))) None) /\
  (0 - snd (dateNow P (fst (getSession P (world s)))) / 1000 < 300)%Z /\
  result (needsReauthentication P s) = Returned false.
Proof.
  cbv zeta. split; [reflexivity|]. split; [vm_compute; reflexivity|].
  vm_compute. reflexivity.
Qed.

Lemma needsReauthentication_without_expiry_witness :
  let script :=
    Mock.mk (Resolved (SessionResponse.mk (Some (Session.mk None)) None))
      Mock.ok_user Mock.ok Mock.ok_session
      (fun id => Resolved (SelectResponse.mk (Some id) None))
      (fun _ => Mock.ok) 20 in
  result (needsReauthentication (Mock.provider script)
            (Mock.page "https://app.example.com" 1700000000000 [] []))
  = Returned false.
Proof.
  cbv zeta.
  refine (needsReauthentication_without_expiry _ _ (1700000000020)%Z _).
  reflexivity.
Defined.

(** ** The fix of [missing_profile] without a user *)

(** C10. When the user lookup of the [missing_profile] fix comes back
    without a user, the fix returns [success = false] with the message that
    the user is not authenticated, and the lookup is the only call it made:
    no insert reaches the profile store. *)
Theorem missingProfile_fix_without_user {W} (P : Provider W) (s : Env W)
    (w : W) (r : UserResponse.t) :
  getUser P (world s) = (w, Resolved r) ->
  UserResponse.user r = None ->
  let run := AuthProblem.fix_ (missingProfileProblem P) s in
  result run = Returned (FixResult.mk false "Usuário não autenticado" None) /\
  trace run = [EvCall GetUser false] /\
  forall row rejected, ~ In (EvCall (InsertProfile row) rejected) (trace run).
Proof.
  intros Hcall Huser run.
  assert (H : result run = Returned (FixResult.mk false "Usuário não autenticado" None)
              /\ trace run = [EvCall GetUser false]).
  { subst run. cbn [AuthProblem.fix_ missingProfileProblem].
    unfold missingProfile_fix. unfold_run.
    rewrite Hcall. run_step. rewrite Huser. run_step. split; reflexivity. }
  destruct H as [Hres Htr]. split; [exact Hres|]. split; [exact Htr|].
  intros row rejected Hin. rewrite Htr in Hin.
  destruct Hin as [Heq|[]]. discriminate.
Qed.

Lemma missingProfile_fix_without_user_witness :
  let P := Mock.provider Mock.signed_out in
  let s := Mock.page "https://app.example.com" 1700000000000 [] [] in
  let run := AuthProblem.fix_ (missingProfileProblem P) s in
  result run = Returned (FixResult.mk false "Usuário não autenticado" None) /\
  trace run = [EvCall GetUser false] /\
  forall row rejected, ~ In (EvCall (InsertProfile row) rejected) (trace run).
Proof.
  cbv zeta.
  refine (missingProfile_fix_without_user (Mock.provider Mock.signed_out)
            (Mock.page "https://app.example.com" 1700000000000 [] [])
            (1700000000020)%Z
            (UserResponse.mk None (Some (AuthError.mk "Auth session missing!")))
            _ _); reflexivity.
Defined.

(** ** The scenario without a session *)

Section NoSession.
Context {W : Type} (P : Provider W).

Lemma cors_check_on_localhost (s : Env W) :
  isLocalhost (origin s) = true ->
  result (cors_check P s) = Returned (CheckResult.mk false None).
Proof.
  intros Hlocal. unfold cors_check. unfold_run.
  run_step. rewrite Hlocal. reflexivity.
Qed.

Lemma sessionExpired_check_without_session (s : Env W) (w : W) :
  getSession P (world s) = (w, Resolved (SessionResponse.mk None None)) ->
  result (sessionExpired_check P s)
  = Returned (CheckResult.mk true (Some "Nenhuma sessão ativa encontrada")).
Proof.
  intros H. unfold sessionExpired_check. unfold_run. rewrite H. reflexivity.
Qed.

(** C8. When [getSession] answers [{session: null}] without an error,
    the diagnosis has an entry for [session_expired] with
    [hasProblem = true] and the details that no active session was found;
    and on a localhost-like origin, [http://localhost:5173] being one, the
    entry for [cors] has [hasProblem = false]. *)
Theorem diagnosis_without_session (s : Env W) :
  (forall w, exists w',
      getSession P w = (w', Resolved (SessionResponse.mk None None))) ->
  exists d,
    result (diagnoseAuthProblems P s) = Returned d /\
    (exists e,
        entry_for "session_expired" d = Some e /\
        Diagnosis.hasProblem e = true /\
        Diagnosis.details e = Some "Nenhuma sessão ativa encontrada") /\
    (isLocalhost (origin s) = true ->
     exists e,
       entry_for "cors" d = Some e /\
       Diagnosis.hasProblem e = false) /\
    isLocalhost "http://localhost:5173" = true.
Proof.
  intros Hsession.
  destruct (diagnose_run P s) as (_ & _ & _ & l & Hl & Hrep).
  exists (Diagnosis.mk l (summarize l)). split; [exact Hl|].
  unfold authProblems in Hrep.
  inversion Hrep as [|p1 e1 ps1 l1 [Hp1 (s1 & _ & Hr1)] Hrep1]; subst.
  inversion Hrep1 as [|p2 e2 ps2 l2 [Hp2 _] Hrep2]; subst.
  inversion Hrep2 as [|p3 e3 ps3 l3 [Hp3 _] Hrep3]; subst.
  inversion Hrep3 as [|p4 e4 ps4 l4 [Hp4 _] Hrep4]; subst.
  inversion Hrep4 as [|p5 e5 ps5 l5 [Hp5 (s5 & Hpage5 & Hr5)] Hrep5]; subst.
  inversion Hrep5; subst.
  unfold entry_for. cbn [Diagnosis.problems find].
  rewrite Hp1, Hp2, Hp3, Hp4, Hp5.
  split; [|split; [|reflexivity]].
  - exists e1. split; [reflexivity|].
    cbn [AuthProblem.check sessionExpiredProblem] in Hr1.
    destruct (Hsession (world s1)) as [w' Hw'].
    rewrite (sessionExpired_check_without_session s1 w' Hw') in Hr1.
    injection Hr1 as H1 H2. now split.
  - intros Hlocal. exists e5. split; [reflexivity|].
    cbn [AuthProblem.check corsProblem] in Hr5.
    destruct Hpage5 as (_ & _ & Horigin).
    rewrite cors_check_on_localhost in Hr5 by now rewrite Horigin.
    now injection Hr5 as H1 H2.
Qed.
End NoSession.

Lemma diagnosis_without_session_witness :
  let P := Mock.provider Mock.signed_out in
  let s := Mock.page "http://localhost:5173" 1700000000000 [] [] in
  exists d,
    result (diagnoseAuthProblems P s) = Returned d /\
    (exists e,
        entry_for "session_expired" d = Some e /\
        Diagnosis.hasProblem e = true /\
        Diagnosis.details e = Some "Nenhuma sessão ativa encontrada") /\
    (isLocalhost (origin s) = true ->
     exists e,
       entry_for "cors" d = Some e /\
       Diagnosis.hasProblem e = false) /\
    isLocalhost "http://localhost:5173" = true.
Proof.
  cbv zeta.
  apply (diagnosis_without_session (Mock.provider Mock.signed_out)).
  intros w. exists (w + 20)%Z. reflexivity.
Defined.

(** ** The local wipe *)

Lemma isAuthKey_mentions (key : string) : isAuthKey key = mentions_auth key.
Proof.
  unfold isAuthKey, mentions_auth. destruct key; reflexivity.
Qed.

Lemma skipn_nth_error {A} (l : list A) (i : nat) :
  skipn i l = match nth_error l i with
              | Some x => x :: skipn (S i) l
              | None => []
              end.
Proof.
  revert l; induction i as [|i IH]; intros [|x l]; try reflexivity.
  cbn [nth_error]. rewrite <- IH. reflexivity.
Qed.

Lemma scanKeys_spec (storage : Storage) (remaining i : nat) (acc : list string) :
  scanKeys storage i remaining acc
  = (acc ++ filter isAuthKey (map fst (firstn remaining (skipn i storage))))%list.
Proof.
  revert i acc; induction remaining as [|n IH]; intros i acc.
  - simpl. now rewrite app_nil_r.
  - cbn [scanKeys]. unfold StorageOps.key.
    rewrite (skipn_nth_error storage i).
    destruct (nth_error storage i) as [[k v]|] eqn:E; cbn [option_map fst].
    + cbn [firstn map filter fst].
      destruct (isAuthKey k); rewrite IH.
      * now rewrite <- app_assoc.
      * reflexivity.
    + rewrite IH. apply nth_error_None in E.
      rewrite (skipn_all2 storage) by lia.
      now rewrite firstn_nil.
Qed.

Lemma scanKeys_all (storage : Storage) :
  scanKeys storage 0 (StorageOps.length storage) []
  = filter isAuthKey (map fst storage).
Proof.
  rewrite scanKeys_spec. unfold StorageOps.length.
  cbn [skipn app]. now rewrite firstn_all.
Qed.

Lemma removeAll_filter (keys : list string) (storage : Storage) :
  removeAll keys storage
  = filter (fun kv => negb (existsb (String.eqb (fst kv)) keys)) storage.
Proof.
  unfold removeAll. revert storage; induction keys as [|k keys IH]; intros storage.
  - simpl. induction storage as [|kv st IHst]; simpl; [reflexivity|].
    now rewrite <- IHst.
  - cbn [fold_left]. rewrite IH. unfold StorageOps.removeItem.
    induction storage as [|kv st IHst]; simpl; [reflexivity|].
    destruct (fst kv =? k)%string; simpl.
    + exact IHst.
    + destruct (existsb (String.eqb (fst kv)) keys); simpl; [exact IHst|].
      now rewrite IHst.
Qed.

Lemma existsb_eqb_In (k : string) (keys : list string) :
  existsb (String.eqb k) keys = true <-> In k keys.
Proof.
  rewrite existsb_exists. split.
  - intros [x [Hx Heq]]. apply String.eqb_eq in Heq. now subst.
  - intros H. exists k. split; [exact H | apply String.eqb_refl].
Qed.

(** The wipe of a storage keeps, in order, the entries whose key mentions
    neither the provider nor "auth". *)
Lemma purge_filter (storage : Storage) :
  purge storage = filter (fun kv => negb (mentions_auth (fst kv))) storage.
Proof.
  unfold purge. rewrite scanKeys_all, removeAll_filter.
  apply filter_ext_in. intros [k v] Hin. cbn [fst]. f_equal.
  rewrite <- isAuthKey_mentions.
  destruct (isAuthKey k) eqn:Hk.
  - apply existsb_eqb_In. apply filter_In. split; [|exact Hk].
    apply in_map_iff. now exists (k, v).
  - destruct (existsb (String.eqb k) (filter isAuthKey (map fst storage))) eqn:Hex;
      [|reflexivity].
    apply existsb_eqb_In in Hex. apply filter_In in Hex as [_ Hex]. congruence.
Qed.

Lemma getItem_filter (keep : string -> bool) (storage : Storage) (k : string) :
  StorageOps.getItem (filter (fun kv => keep (fst kv)) storage) k
  = if keep k then StorageOps.getItem storage k else None.
Proof.
  induction storage as [|[k' v] st IH]; cbn [filter fst StorageOps.getItem].
  - now destruct (keep k).
  - destruct (k' =? k)%string eqn:Heq.
    + apply String.eqb_eq in Heq. subst k'.
      destruct (keep k) eqn:Hk.
      * cbn [StorageOps.getItem]. now rewrite String.eqb_refl.
      * rewrite IH. now rewrite ?Hk.
    + destruct (keep k'); [cbn [StorageOps.getItem]; rewrite Heq|]; exact IH.
Qed.

Lemma mentions_auth_iff (key : string) :
  mentions_auth key = true <-> contains key "supabase" \/ contains key "auth".
Proof.
  unfold mentions_auth. now rewrite orb_true_iff, !includes_iff.
Qed.

Section Wipe.
Context {W : Type} (P : Provider W).

Lemma clearAuthData_run (s : Env W) :
  let (w, settled) := signOut P (world s) in
  clearAuthData P s
  = mkRun (mkEnv w (purge (localStorage s)) (purge (sessionStorage s)) (origin s))
      [EvCall SignOut match settled with Resolved _ => false | Rejected _ => true end]
      (Returned
         match settled with
         | Resolved _ => Status.mk true "Dados de autenticação limpos com sucesso"
         | Rejected _ => Status.mk false "Erro ao limpar dados de autenticação"
         end).
Proof.
  unfold clearAuthData, update_localStorage, update_sessionStorage. unfold_run.
  run_step. destruct (signOut P (world s)) as [w [r|reason]]; reflexivity.
Qed.

(** C6. [clearAuthData] removes from [localStorage] and from
    [sessionStorage] every key that contains "supabase" (the name of the
    provider) or "auth", leaves every other key with its value, and issues
    the remote sign-out in every run: whether or not a key matched, and
    whether or not the sign-out then rejects.  It never throws. *)
Theorem clearAuthData_wipes_and_signs_out (s : Env W) :
  let r := clearAuthData P s in
  (forall key,
      contains key "supabase" \/ contains key "auth" ->
      StorageOps.getItem (localStorage (final r)) key = None /\
      StorageOps.getItem (sessionStorage (final r)) key = None) /\
  (forall key,
      ~ (contains key "supabase" \/ contains key "auth") ->
      StorageOps.getItem (localStorage (final r)) key
      = StorageOps.getItem (localStorage s) key /\
      StorageOps.getItem (sessionStorage (final r)) key
      = StorageOps.getItem (sessionStorage s) key) /\
  (exists rejected, trace r = [EvCall SignOut rejected]) /\
  (exists status, result r = Returned status).
Proof.
  cbv zeta. pose proof (clearAuthData_run s) as Hrun.
  destruct (signOut P (world s)) as [w settled]. rewrite Hrun.
  cbn [final trace result localStorage sessionStorage].
  rewrite !purge_filter.
  split; [|split; [|split; [eexists; reflexivity | eexists; reflexivity]]].
  - intros key Hkey. apply mentions_auth_iff in Hkey.
    rewrite !(getItem_filter (fun k => negb (mentions_auth k))), Hkey.
    now split.
  - intros key Hkey.
    assert (Hno : mentions_auth key = false).
    { destruct (mentions_auth key) eqn:E; [|reflexivity].
      exfalso. apply Hkey. now apply mentions_auth_iff. }
    rewrite !(getItem_filter (fun k => negb (mentions_auth k))), Hno.
    now split.
Qed.
End Wipe.

(** A browser with a session token of the provider, a flag of the
    application's own and a theme; the wipe keeps the theme only. *)
Lemma clearAuthData_wipes_and_signs_out_witness :
  let ls := [("sb-xyz-auth-token", "{}"); ("theme", "dark"); ("authFlag", "1")] in
  let s := Mock.page "https://app.example.com" 1700000000000 ls [("supabase.tmp", "x")] in
  let r := clearAuthData (Mock.provider Mock.healthy) s in
  contains "authFlag" "auth" /\
  ~ (contains "theme" "supabase" \/ contains "theme" "auth") /\
  StorageOps.getItem (localStorage (final r)) "authFlag" = None /\
  StorageOps.getItem (localStorage (final r)) "theme" = Some "dark".
Proof.
  cbv zeta.
  assert (Hauth : contains "authFlag" "auth") by (now exists "", "Flag").
  assert (Htheme : ~ (contains "theme" "supabase" \/ contains "theme" "auth")).
  { rewrite <- mentions_auth_iff. vm_compute. discriminate. }
  split; [exact Hauth|]. split; [exact Htheme|].
  pose proof (clearAuthData_wipes_and_signs_out (Mock.provider Mock.healthy)
                (Mock.page "https://app.example.com" 1700000000000
                   [("sb-xyz-auth-token", "{}"); ("theme", "dark"); ("authFlag", "1")]
                   [("supabase.tmp", "x")])) as (Hgone & Hkept & _).
  split.
  - exact (proj1 (Hgone "authFlag" (or_intror Hauth))).
  - exact (proj1 (Hkept "theme" Htheme)).
Defined.

(* ================================================================== *)
(** * Further properties of the engine *)

(** ** The refresh of a session *)

Section Refresh.
Context {W : Type} (P : Provider W).

(** X1. [forceSessionRefresh] never throws, makes the refresh call and
    no other call, and reports success exactly when the refresh resolves with
    a session and no error. *)
Theorem forceSessionRefresh_success_iff (s : Env W) :
  exists status rejected,
    result (forceSessionRefresh P s) = Returned status /\
    trace (forceSessionRefresh P s) = [EvCall RefreshSession rejected] /\
    (Status.success status = true <->
     exists w session,
       refreshSession P (world s)
       = (w, Resolved (SessionResponse.mk (Some session) None))).
Proof.
  unfold forceSessionRefresh. unfold_run.
  destruct (refreshSession P (world s)) as [w [[session error]|reason]];
    [destruct error as [e|]; [|destruct session as [session|]]|];
    run_step; do 2 eexists;
    (split; [reflexivity|]); (split; [reflexivity|]);
    cbn [Status.success].
  - split; [discriminate|]. intros (w' & session' & H). discriminate.
  - split; [|reflexivity]. intros _. now exists w, session.
  - split; [discriminate|]. intros (w' & session' & H). discriminate.
  - split; [discriminate|]. intros (w' & session' & H). discriminate.
Qed.

(** X2. The fix of [session_expired] and [forceSessionRefresh] are the
    same operation on the provider: from the same state they make the same
    call, end in the same state and agree on success. *)
Theorem sessionExpired_fix_is_forceSessionRefresh (s : Env W) :
  exists f status,
    result (sessionExpired_fix P s) = Returned f /\
    result (forceSessionRefresh P s) = Returned status /\
    FixResult.success f = Status.success status /\
    trace (sessionExpired_fix P s) = trace (forceSessionRefresh P s) /\
    final (sessionExpired_fix P s) = final (forceSessionRefresh P s).
Proof.
  unfold sessionExpired_fix, forceSessionRefresh. unfold_run.
  destruct (refreshSession P (world s)) as [w [[session error]|reason]];
    [destruct error as [e|]; [|destruct session as [session|]]|];
    run_step; do 2 eexists; repeat split.
Qed.
End Refresh.


(** ** The fixes, one by one *)

Section Fixes.
Context {W : Type} (P : Provider W).

(** X3. The fix of [invalid_token] looks at nothing the sign-out returns:
    it reports success exactly when the sign-out promise resolves, be it
    with an error result, and makes that one call only. *)
Theorem invalidToken_fix_success_iff (s : Env W) :
  exists f rejected,
    result (invalidToken_fix P s) = Returned f /\
    trace (invalidToken_fix P s) = [EvCall SignOut rejected] /\
    (FixResult.success f = true <->
     exists w r, signOut P (world s) = (w, Resolved r)).
Proof.
  unfold invalidToken_fix. unfold_run.
  destruct (signOut P (world s)) as [w [r|reason]];
    run_step; do 2 eexists;
    (split; [reflexivity|]); (split; [reflexivity|]); cbn [FixResult.success].
  - split; [|reflexivity]. intros _. now exists w, r.
  - split; [discriminate|]. intros (w' & r' & H). discriminate.
Qed.

(** X4. The fix of [connectivity] does not measure time: it fetches the
    session once, never reads the clock, and reports success exactly when
    the fetch resolves without an error, however long it took. *)
Theorem connectivity_fix_success_iff (s : Env W) :
  exists f rejected,
    result (connectivity_fix P s) = Returned f /\
    trace (connectivity_fix P s) = [EvCall GetSession rejected] /\
    world (final (connectivity_fix P s)) = fst (getSession P (world s)) /\
    (FixResult.success f = true <->
     exists w session,
       getSession P (world s) = (w, Resolved (SessionResponse.mk session None))).
Proof.
  unfold connectivity_fix. unfold_run.
  destruct (getSession P (world s)) as [w [[session [e|]]|reason]];
    run_step; do 2 eexists;
    (split; [reflexivity|]); (split; [reflexivity|]); (split; [reflexivity|]);
    cbn [FixResult.success].
  - split; [discriminate|]. intros (w' & r' & H). discriminate.
  - split; [|reflexivity]. intros _. now exists w, session.
  - split; [discriminate|]. intros (w' & r' & H). discriminate.
Qed.

(** X5. With a user, the fix of [missing_profile] issues one insert after
    the lookup.  The row has the id of the user and the role "user"; its
    email is the email of the user, or empty when there is none; its name is
    the name in the metadata of the user, or "Usuário" when that is missing
    or empty, so the name is never empty.  The fix reports success exactly
    when the insert resolves without an error. *)
Theorem missingProfile_fix_inserts_defaults (s : Env W) (w : W)
    (r : UserResponse.t) (user : User.t) :
  getUser P (world s) = (w, Resolved r) ->
  UserResponse.user r = Some user ->
  exists row rejected f,
    trace (missingProfile_fix P s)
    = [EvCall GetUser false; EvCall (InsertProfile row) rejected] /\
    result (missingProfile_fix P s) = Returned f /\
    Profile.id row = User.id user /\
    Profile.role row = "user" /\
    Profile.email row
    = match User.email user with Some e => e | None => "" end /\
    Profile.name row
    = match User.user_metadata_name user with
      | Some "" | None => "Usuário"
      | Some n => n
      end /\
    Profile.name row <> "" /\
    (FixResult.success f = true <->
     exists w', insertProfile P row w = (w', Resolved (ErrorResponse.mk None))).
Proof.
  intros Hcall Huser. unfold missingProfile_fix. unfold_run.
  rewrite Hcall. run_step. rewrite Huser. run_step.
  set (row := Profile.mk (User.id user) (or_default (User.email user) "")
                (or_default (User.user_metadata_name user) "Usuário") "user").
  assert (Hemail : Profile.email row
                   = match User.email user with Some e => e | None => "" end).
  { subst row. cbn [Profile.email]. unfold or_default.
    destruct (User.email user) as [[|c e]|]; reflexivity. }
  assert (Hname : Profile.name row
                  = match User.user_metadata_name user with
                    | Some "" | None => "Usuário"
                    | Some n => n
                    end).
  { subst row. cbn [Profile.name]. unfold or_default.
    destruct (User.user_metadata_name user) as [[|c n]|]; reflexivity. }
  assert (Hne : Profile.name row <> "").
  { rewrite Hname.
    destruct (User.user_metadata_name user) as [[|c n]|]; discriminate. }
  destruct (insertProfile P row w) as [w' [[[e|]]|reason]] eqn:Hins;
    run_step; exists row; do 2 eexists;
    (split; [reflexivity|]); (split; [reflexivity|]);
    (split; [reflexivity|]); (split; [reflexivity|]);
    (split; [exact Hemail|]); (split; [exact Hname|]); (split; [exact Hne|]);
    cbn [FixResult.success].
  - split; [discriminate|]. intros (w'' & H). congruence.
  - split; [|reflexivity]. intros _. now exists w'.
  - split; [discriminate|]. intros (w'' & H). congruence.
Qed.
End Fixes.

Lemma missingProfile_fix_inserts_defaults_witness :
  let P := Mock.provider Mock.healthy in
  let s := Mock.page "https://app.example.com" 1700000000000 [] [] in
  exists row rejected f,
    trace (missingProfile_fix P s)
    = [EvCall GetUser false; EvCall (InsertProfile row) rejected] /\
    result (missingProfile_fix P s) = Returned f /\
    Profile.id row = "u-1" /\
    Profile.role row = "user" /\
    Profile.email row = "alice@example.com" /\
    Profile.name row = "Usuário" /\
    Profile.name row <> "" /\
    (FixResult.success f = true <->
     exists w', insertProfile P row (1700000000020)%Z
                = (w', Resolved (ErrorResponse.mk None))).
Proof.
  cbv zeta.
  refine (missingProfile_fix_inserts_defaults (Mock.provider Mock.healthy)
            (Mock.page "https://app.example.com" 1700000000000 [] [])
            (1700000000020)%Z (UserResponse.mk (Some Mock.alice) None)
            Mock.alice _ _); reflexivity.
Defined.

(** ** Latency *)

Section Latency.
Context {W : Type} (P : Provider W).

(** X6. When the session fetch of the [connectivity] check resolves
    without an error, the check reports a problem exactly when more than
    5000 milliseconds passed between its two readings of the clock: 5000
    sharp is no problem, and the details of a slow answer give the elapsed
    milliseconds. *)
Theorem connectivity_check_latency (s : Env W) (w0 w1 : W) (t0 : Z)
    (session : option Session.t) :
  dateNow P (world s) = (w0, t0) ->
  getSession P w0 = (w1, Resolved (SessionResponse.mk session None)) ->
  let elapsed := (snd (dateNow P w1) - t0)%Z in
  exists c,
    result (connectivity_check P s) = Returned c /\
    (CheckResult.hasProblem c = true <-> (elapsed > 5000)%Z) /\
    ((elapsed > 5000)%Z ->
     CheckResult.details c = Some ("Resposta lenta: " ++ show elapsed ++ "ms")) /\
    ((elapsed <= 5000)%Z -> CheckResult.details c = None).
Proof.
  intros Hnow Hcall elapsed. unfold connectivity_check. unfold_run.
  rewrite Hnow. run_step. rewrite Hcall. run_step.
  destruct (dateNow P w1) as [w2 t1] eqn:Hend. cbn [snd] in elapsed.
  run_step. fold elapsed.
  destruct (elapsed >? 5000)%Z eqn:Hslow; run_step;
    eexists; (split; [reflexivity|]); cbn [CheckResult.hasProblem CheckResult.details].
  - apply Z.gtb_lt in Hslow. repeat split; intros; try reflexivity; lia.
  - assert (elapsed <= 5000)%Z.
    { destruct (Z.gtb_spec elapsed 5000); [discriminate | assumption]. }
    repeat split; intros; try reflexivity; try discriminate; lia.
Qed.
End Latency.

(** A network on which every call takes six seconds. *)
Lemma connectivity_check_latency_witness :
  let slow :=
    Mock.mk Mock.ok_session Mock.ok_user Mock.ok Mock.ok_session
      (fun id => Resolved (SelectResponse.mk (Some id) None))
      (fun _ => Mock.ok) 6000 in
  let s := Mock.page "https://app.example.com" 1700000000000 [] [] in
  exists c,
    result (connectivity_check (Mock.provider slow) s) = Returned c /\
    (CheckResult.hasProblem c = true <-> (6000 > 5000)%Z) /\
    ((6000 > 5000)%Z ->
     CheckResult.details c = Some "Resposta lenta: 6000ms") /\
    ((6000 <= 5000)%Z -> CheckResult.details c = None).
Proof.
  cbv zeta.
  refine (connectivity_check_latency _ _ (1700000000000)%Z (1700000006000)%Z
            (1700000000000)%Z (Some (Session.mk (Some 1700003600%Z))) _ _);
    reflexivity.
Defined.

(** ** The wipe, once more *)

Section WipeAgain.
Context {W : Type} (P : Provider W).

(** Both storages after [clearAuthData], whatever the sign-out did. *)
Lemma clearAuthData_storages (s : Env W) :
  localStorage (final (clearAuthData P s))
  = filter (fun kv => negb (mentions_auth (fst kv))) (localStorage s) /\
  sessionStorage (final (clearAuthData P s))
  = filter (fun kv => negb (mentions_auth (fst kv))) (sessionStorage s) /\
  origin (final (clearAuthData P s)) = origin s.
Proof.
  pose proof (clearAuthData_run P s) as Hrun.
  destruct (signOut P (world s)) as [w settled]. rewrite Hrun.
  cbn [final localStorage sessionStorage origin].
  rewrite !purge_filter. now repeat split.
Qed.

(** X7. [clearAuthData] reports success exactly when the sign-out promise
    resolves, be it with an error result.  When the promise rejects the
    report is a failure, and nothing is rolled back: in either case both
    storages hold, in their old order, the entries whose key contains neither
    "supabase" nor "auth". *)
Theorem clearAuthData_success_iff (s : Env W) :
  exists status,
    result (clearAuthData P s) = Returned status /\
    (Status.success status = true <->
     exists w r, signOut P (world s) = (w, Resolved r)) /\
    localStorage (final (clearAuthData P s))
    = filter (fun kv => negb (mentions_auth (fst kv))) (localStorage s) /\
    sessionStorage (final (clearAuthData P s))
    = filter (fun kv => negb (mentions_auth (fst kv))) (sessionStorage s) /\
    origin (final (clearAuthData P s)) = origin s.
Proof.
  pose proof (clearAuthData_storages s) as Hst.
  pose proof (clearAuthData_run P s) as Hrun.
  destruct (signOut P (world s)) as [w [r|reason]]; rewrite Hrun in *;
    cbn [result]; eexists;
    (split; [reflexivity|]); (split; [|exact Hst]);
    cbn [Status.success].
  - split; [|reflexivity]. intros _. now exists w, r.
  - split; [discriminate|]. intros (w' & r' & H). discriminate.
Qed.

Lemma filter_idempotent {A} (f : A -> bool) (l : list A) :
  filter f (filter f l) = filter f l.
Proof.
  induction l as [|x l IH]; simpl; [reflexivity|].
  destruct (f x) eqn:Hx; simpl; rewrite ?Hx, IH; reflexivity.
Qed.

(** X8. Wiping twice is wiping once: a second [clearAuthData], whatever
    the provider did in between, leaves both storages as the first one left
    them. *)
Theorem clearAuthData_twice (s : Env W) :
  let once := final (clearAuthData P s) in
  let twice := final (clearAuthData P once) in
  localStorage twice = localStorage once /\
  sessionStorage twice = sessionStorage once.
Proof.
  cbv zeta.
  destruct (clearAuthData_storages (final (clearAuthData P s))) as (Hl2 & Hs2 & _).
  destruct (clearAuthData_storages s) as (Hl1 & Hs1 & _).
  rewrite Hl2, Hs2, Hl1, Hs1. now rewrite !filter_idempotent.
Qed.
End WipeAgain.

(** ** The clock of [needsReauthentication] *)

Section Clock.
Context {W : Type} (P : Provider W).

(** X9. The clock is read in milliseconds and rounded down to seconds
    before the comparison.  So for a session fetched without error whose
    expiry [expiresAt] (in seconds) is not [0], [needsReauthentication]
    answers true exactly when at most 299000 milliseconds are left until the
    expiry; with 299001 milliseconds left, less than five minutes, it answers
    false. *)
Theorem needsReauthentication_milliseconds (s : Env W) (w : W) (expiresAt : Z) :
  getSession P (world s)
  = (w, Resolved (SessionResponse.mk (Some (Session.mk (Some expiresAt))) None)) ->
  expiresAt <> 0%Z ->
  let now_ms := snd (dateNow P w) in
  exists b,
    result (needsReauthentication P s) = Returned b /\
    (b = true <-> (1000 * expiresAt - now_ms <= 299000)%Z).
Proof.
  intros Hcall Hnz now_ms. rewrite needsReauthentication_run, Hcall.
  cbn [SessionResponse.error SessionResponse.session Session.expires_at].
  fold now_ms. eexists. split; [reflexivity|].
  unfold truthy_num. apply Z.eqb_neq in Hnz. rewrite Hnz. cbn [negb andb].
  rewrite Z.ltb_lt.
  pose proof (Z.div_mod now_ms 1000 ltac:(lia)) as Hdiv.
  pose proof (Z.mod_pos_bound now_ms 1000 ltac:(lia)) as Hmod.
  lia.
Qed.
End Clock.

Lemma needsReauthentication_milliseconds_witness :
  let script :=
    Mock.mk (Resolved (SessionResponse.mk (Some (Session.mk (Some 1700000300%Z))) None))
      Mock.ok_user Mock.ok Mock.ok_session
      (fun id => Resolved (SelectResponse.mk (Some id) None))
      (fun _ => Mock.ok) 20 in
  let s := Mock.page "https://app.example.com" 1700000000979 [] [] in
  exists b,
    result (needsReauthentication (Mock.provider script) s) = Returned b /\
    (b = true <-> (1000 * 1700000300 - 1700000000999 <= 299000)%Z).
Proof.
  cbv zeta.
  refine (needsReauthentication_milliseconds _ _ (1700000000999)%Z
            (1700000300)%Z _ _); [reflexivity | discriminate].
Defined.

(** ** The passes, entry by entry *)

Lemma checkOne_trace {W} (p : AuthProblem.t W) (s : Env W) :
  trace (checkOne p s) = EvCheck (AuthProblem.id p) :: trace (AuthProblem.check p s).
Proof.
  unfold checkOne, invoke_check, bind, emit, ret. cbn [final trace result app].
  destruct (result (AuthProblem.check p s)); cbn [final trace result app];
    [now rewrite app_nil_r | reflexivity].
Qed.

Lemma Promise_all_trace {W A} (Q : Event -> bool) (ms : list (M W A)) :
  (forall m, In m ms -> forall s, forallb Q (trace (m s)) = true) ->
  forall s, forallb Q (trace (Promise_all ms s)) = true.
Proof.
  induction ms as [|m ms IH]; intros Hms s; [reflexivity|].
  cbn [Promise_all trace]. rewrite forallb_app.
  rewrite (Hms m (or_introl eq_refl)), IH; [reflexivity|].
  intros m' Hm'. apply Hms. now right.
Qed.

Lemma bind_ret_trace {W A B} (m : M W A) (f : A -> B) (s : Env W) :
  trace (bind m (fun x => ret (f x)) s) = trace (m s).
Proof.
  unfold bind, ret. destruct (result (m s)); cbn [trace]; [apply app_nil_r | reflexivity].
Qed.

Section Entries.
Context {W : Type} (P : Provider W).

Lemma registry_checks_read (p : AuthProblem.t W) (s : Env W) :
  In p (authProblems P) -> forallb is_read (trace (AuthProblem.check p s)) = true.
Proof.
  unfold authProblems.
  intros [<-|[<-|[<-|[<-|[<-|[]]]]]]; cbn [AuthProblem.check
    sessionExpiredProblem invalidTokenProblem connectivityProblem
    missingProfileProblem corsProblem].
  - unfold sessionExpired_check. unfold_run. run_cases; reflexivity.
  - unfold invalidToken_check. unfold_run. run_cases; reflexivity.
  - unfold connectivity_check. unfold_run. run_cases; reflexivity.
  - unfold missingProfile_check. unfold_run. run_cases; reflexivity.
  - unfold cors_check. unfold_run. run_cases; reflexivity.
Qed.

(** What a check returns is a report with details or a clean bill without. *)
Lemma registry_checks_shape (p : AuthProblem.t W) (s : Env W) (c : CheckResult.t) :
  In p (authProblems P) ->
  result (AuthProblem.check p s) = Returned c ->
  (CheckResult.hasProblem c = true /\ exists t, CheckResult.details c = Some t) \/
  (CheckResult.hasProblem c = false /\ CheckResult.details c = None).
Proof.
  unfold authProblems.
  intros [<-|[<-|[<-|[<-|[<-|[]]]]]]; cbn [AuthProblem.check
    sessionExpiredProblem invalidTokenProblem connectivityProblem
    missingProfileProblem corsProblem].
  - unfold sessionExpired_check. unfold_run. run_cases; run_step;
      intros [= <-]; cbn; eauto.
  - unfold invalidToken_check. unfold_run. run_cases; run_step;
      intros [= <-]; cbn; eauto.
  - unfold connectivity_check. unfold_run. run_cases; run_step;
      intros [= <-]; cbn; eauto.
  - unfold missingProfile_check. unfold_run. run_cases; run_step;
      intros [= <-]; cbn; eauto.
  - unfold cors_check. unfold_run. run_cases; run_step;
      intros [= <-]; cbn; eauto.
Qed.

(** What a fix returns has a message, and no details when it succeeded. *)
Lemma registry_fixes_shape (p : AuthProblem.t W) (s : Env W) (f : FixResult.t) :
  In p (authProblems P) ->
  result (AuthProblem.fix_ p s) = Returned f ->
  FixResult.message f <> "" /\
  (FixResult.success f = true -> FixResult.details f = None).
Proof.
  unfold authProblems.
  intros [<-|[<-|[<-|[<-|[<-|[]]]]]]; cbn [AuthProblem.fix_
    sessionExpiredProblem invalidTokenProblem connectivityProblem
    missingProfileProblem corsProblem].
  - unfold sessionExpired_fix. unfold_run. run_cases; run_step;
      intros [= <-]; cbn; split; discriminate || reflexivity.
  - unfold invalidToken_fix. unfold_run. run_cases; run_step;
      intros [= <-]; cbn; split; discriminate || reflexivity.
  - unfold connectivity_fix. unfold_run. run_cases; run_step;
      intros [= <-]; cbn; split; discriminate || reflexivity.
  - unfold missingProfile_fix. unfold_run. run_cases; run_step;
      intros [= <-]; cbn; split; discriminate || reflexivity.
  - unfold cors_fix. unfold_run. run_step.
    intros [= <-]; cbn; split; discriminate.
Qed.

Lemma fixOne_final (e : Diagnosis.entry W) (s : Env W) :
  final (fixOne e s) = final (AuthProblem.fix_ (Diagnosis.problem e) s).
Proof.
  unfold fixOne, invoke_fix, bind, emit, ret. cbn [final trace result app].
  destruct (result (AuthProblem.fix_ (Diagnosis.problem e) s)); reflexivity.
Qed.

Lemma fix_pass_reports (todo : list (Diagnosis.entry W)) :
  Forall (fun e => fixes_well (Diagnosis.problem e)) todo ->
  forall s,
    same_page s (final (Promise_all (map fixOne todo) s)) /\
    exists l,
      result (Promise_all (map fixOne todo) s) = Returned l /\
      Forall2 (fix_reports s) todo l.
Proof.
  induction 1 as [|e todo [message He] _ IH]; intros s.
  - split; [apply same_page_refl|]. exists []. split; [reflexivity | constructor].
  - cbn [map Promise_all].
    destruct (He s) as (Hpage & _ & f & Hf & _).
    rewrite (fixOne_run e s f Hf). cbn [final trace result].
    destruct (IH (final (AuthProblem.fix_ (Diagnosis.problem e) s)))
      as (Hpage' & l & Hl & Hrep).
    split; [eapply same_page_trans; eassumption|].
    rewrite Hl. eexists; split; [reflexivity|].
    constructor.
    + split; [reflexivity|]. exists s. split; [apply same_page_refl|].
      cbn [Fixes.success Fixes.message Fixes.details]. rewrite Hf. now destruct f.
    + eapply Forall2_impl; [|exact Hrep].
      intros q a [Hq (s' & Hs' & Ha)]. split; [exact Hq|].
      exists s'. split; [|exact Ha].
      eapply same_page_trans; eassumption.
Qed.

(** The two passes of [applyAuthFixes], with what every entry reports. *)
Lemma apply_run_reports (s : Env W) :
  exists l applied,
    let d := diagnoseAuthProblems P s in
    let flagged := filter (fun p => Diagnosis.hasProblem p) l in
    let pass := Promise_all (map fixOne flagged) (final d) in
    result d = Returned (Diagnosis.mk l (summarize l)) /\
    Forall2 (reports s) (authProblems P) l /\
    Forall2 (fix_reports (final d)) flagged applied /\
    result (applyAuthFixes P s) = Returned (Fixes.mk applied (tally applied)) /\
    trace (applyAuthFixes P s) = (trace d ++ trace pass)%list /\
    final (applyAuthFixes P s) = final pass /\
    same_page s (final (applyAuthFixes P s)).
Proof.
  destruct (diagnose_run P s) as (Hpage & _ & _ & l & Hl & Hrep).
  assert (Hwell : Forall (fun e => fixes_well (Diagnosis.problem e))
                    (filter (fun p => Diagnosis.hasProblem p) l)).
  { apply Forall_forall. intros e He.
    apply filter_In in He as [He _].
    pose proof (registry_fixes_well P) as Hreg.
    rewrite Forall_forall in Hreg. apply Hreg.
    rewrite <- (reports_problems s _ _ Hrep). now apply in_map. }
  destruct (fix_pass_reports _ Hwell (final (diagnoseAuthProblems P s)))
    as (Hpage2 & applied & Ha & Hfix).
  destruct (bind_ret_returned _ (fun results => Fixes.mk results (tally results))
              _ applied Ha) as (Hf2 & Ht2 & Hr2).
  destruct (bind_returned (diagnoseAuthProblems P)
              (fun d => results <- Promise_all
                 (map fixOne (filter (fun p => Diagnosis.hasProblem p)
                                (Diagnosis.problems d))) ;;
               ret (Fixes.mk results (tally results)))
              s _ Hl) as (Hf1 & Ht1 & Hr1).
  cbv beta in Hf1, Ht1, Hr1. cbn [Diagnosis.problems] in Hf1, Ht1, Hr1.
  rewrite Hf2 in Hf1. rewrite Ht2 in Ht1. rewrite Hr2 in Hr1.
  rewrite <- (apply_unfold P) in Hf1, Ht1, Hr1.
  exists l, applied. cbv zeta.
  split; [exact Hl|]. split; [exact Hrep|]. split; [exact Hfix|].
  split; [exact Hr1|]. split; [exact Ht1|]. split; [exact Hf1|].
  rewrite Hf1. eapply same_page_trans; eassumption.
Qed.

(** The diagnosis has five entries, those of the registry. *)
Lemma diagnosis_five (s : Env W) (l : list (Diagnosis.entry W)) :
  Forall2 (reports s) (authProblems P) l ->
  exists e1 e2 e3 e4 e5,
    l = [e1; e2; e3; e4; e5] /\
    reports s (sessionExpiredProblem P) e1 /\
    reports s (invalidTokenProblem P) e2 /\
    reports s (connectivityProblem P) e3 /\
    reports s (missingProfileProblem P) e4 /\
    reports s (corsProblem P) e5.
Proof.
  unfold authProblems. intros Hrep.
  inversion Hrep as [|p1 e1 ps1 l1 H1 Hrep1]; subst.
  inversion Hrep1 as [|p2 e2 ps2 l2 H2 Hrep2]; subst.
  inversion Hrep2 as [|p3 e3 ps3 l3 H3 Hrep3]; subst.
  inversion Hrep3 as [|p4 e4 ps4 l4 H4 Hrep4]; subst.
  inversion Hrep4 as [|p5 e5 ps5 l5 H5 Hrep5]; subst.
  inversion Hrep5; subst.
  exists e1, e2, e3, e4, e5. split; [reflexivity|].
  repeat (split; [assumption|]). assumption.
Qed.
End Entries.

Lemma Forall2_In_r {A B} (R : A -> B -> Prop) (la : list A) (lb : list B) (b : B) :
  Forall2 R la lb -> In b lb -> exists a, In a la /\ R a b.
Proof.
  induction 1 as [|a' b' la lb HR _ IH]; intros Hin; [contradiction|].
  destruct Hin as [<-|Hin].
  - exists a'. split; [now left | exact HR].
  - destruct (IH Hin) as (a & Ha & HRa). exists a. split; [now right | exact HRa].
Qed.

Lemma Forall2_In_l {A B} (R : A -> B -> Prop) (la : list A) (lb : list B) (a : A) :
  Forall2 R la lb -> In a la -> exists b, In b lb /\ R a b.
Proof.
  induction 1 as [|a' b' la lb HR _ IH]; intros Hin; [contradiction|].
  destruct Hin as [<-|Hin].
  - exists b'. split; [now left | exact HR].
  - destruct (IH Hin) as (b & Hb & HRb). exists b. split; [now right | exact HRb].
Qed.

Lemma filter_In_length {A} (f : A -> bool) (l : list A) (x : A) :
  In x l -> f x = true -> 1 <= List.length (filter f l).
Proof.
  intros Hin Hx. assert (H : In x (filter f l)) by (apply filter_In; now split).
  destruct (filter f l); [contradiction | simpl; lia].
Qed.

Lemma filter_none {A} (f : A -> bool) (l : list A) :
  (forall x, In x l -> f x = false) -> filter f l = [].
Proof.
  induction l as [|x l IH]; intros H; simpl; [reflexivity|].
  rewrite (H x (or_introl eq_refl)). apply IH. intros y Hy. apply H. now right.
Qed.

(** ** Invariants of the two passes *)

Section Invariants.
Context {W : Type} (P : Provider W).

Lemma diagnosis_entry_origin (s : Env W) (l : list (Diagnosis.entry W))
    (e : Diagnosis.entry W) :
  Forall2 (reports s) (authProblems P) l -> In e l ->
  In (Diagnosis.problem e) (authProblems P) /\
  exists s' c,
    result (AuthProblem.check (Diagnosis.problem e) s') = Returned c /\
    CheckResult.hasProblem c = Diagnosis.hasProblem e /\
    CheckResult.details c = Diagnosis.details e.
Proof.
  intros Hrep He.
  destruct (Forall2_In_r _ _ _ _ Hrep He) as (p & Hp & Heq & s' & _ & Hres).
  rewrite Heq. split; [exact Hp|].
  exists s'. eexists. split; [exact Hres|]. now split.
Qed.

(** X10. In every diagnosis an entry carries details exactly when it is
    flagged: a flagged entry has a details string, an entry that is not
    flagged has none. *)
Theorem diagnosis_details_iff_flagged (s : Env W) :
  exists d,
    result (diagnoseAuthProblems P s) = Returned d /\
    forall e,
      In e (Diagnosis.problems d) ->
      (Diagnosis.hasProblem e = true -> exists t, Diagnosis.details e = Some t) /\
      (Diagnosis.hasProblem e = false -> Diagnosis.details e = None).
Proof.
  destruct (diagnose_run P s) as (_ & _ & _ & l & Hl & Hrep).
  exists (Diagnosis.mk l (summarize l)). split; [exact Hl|].
  cbn [Diagnosis.problems]. intros e He.
  destruct (diagnosis_entry_origin s l e Hrep He) as (Hp & s' & c & Hres & Hflag & Hdet).
  destruct (registry_checks_shape P _ s' c Hp Hres) as [[H1 [t H2]]|[H1 H2]];
    rewrite <- Hflag, <- Hdet, H1, H2; split; intros; try discriminate; eauto.
Qed.

(** X11. The diagnostic pass only reads: every call that
    [diagnoseAuthProblems] makes is a session fetch, a user lookup or a
    profile select, never a sign-out, a refresh or an insert. *)
Theorem diagnosis_only_reads (s : Env W) :
  forall c rejected,
    In (EvCall c rejected) (trace (diagnoseAuthProblems P s)) ->
    c = GetSession \/ c = GetUser \/ exists id, c = SelectProfile id.
Proof.
  assert (H : forallb is_read (trace (diagnoseAuthProblems P s)) = true).
  { rewrite (diagnose_unfold P), bind_ret_trace.
    apply Promise_all_trace. intros m Hm s'.
    apply in_map_iff in Hm as (p & <- & Hp).
    rewrite checkOne_trace. cbn [forallb is_read andb].
    now apply (registry_checks_read P). }
  intros c rejected Hin.
  rewrite forallb_forall in H. specialize (H _ Hin).
  destruct c; cbn in H; try discriminate; eauto.
Qed.

(** X12. The buckets of a diagnosis add up to its total.  The registry has
    no critical and no low problem, two high ones and three medium ones, so
    [critical] and [low] are always 0, [high] is at most 2 and [medium] at
    most 3. *)
Theorem diagnosis_buckets_add_up (s : Env W) :
  exists d,
    result (diagnoseAuthProblems P s) = Returned d /\
    let sm := Diagnosis.summary d in
    Diagnosis.total sm
    = Diagnosis.critical sm + Diagnosis.high sm + Diagnosis.medium sm + Diagnosis.low sm /\
    Diagnosis.critical sm = 0 /\
    Diagnosis.low sm = 0 /\
    Diagnosis.high sm <= 2 /\
    Diagnosis.medium sm <= 3.
Proof.
  destruct (diagnose_run P s) as (_ & _ & _ & l & Hl & Hrep).
  exists (Diagnosis.mk l (summarize l)). split; [exact Hl|].
  destruct (diagnosis_five P s l Hrep)
    as (e1 & e2 & e3 & e4 & e5 & -> & [H1 _] & [H2 _] & [H3 _] & [H4 _] & [H5 _]).
  cbn [Diagnosis.summary]. unfold summarize, count.
  cbn [filter Diagnosis.total Diagnosis.critical Diagnosis.high
       Diagnosis.medium Diagnosis.low].
  rewrite H1, H2, H3, H4, H5.
  cbn [AuthProblem.severity sessionExpiredProblem invalidTokenProblem
       connectivityProblem missingProfileProblem corsProblem severity_eqb].
  destruct (Diagnosis.hasProblem e1), (Diagnosis.hasProblem e2),
    (Diagnosis.hasProblem e3), (Diagnosis.hasProblem e4),
    (Diagnosis.hasProblem e5); cbn; lia.
Qed.
End Invariants.

Lemma diagnosis_only_reads_witness :
  let P := Mock.provider Mock.healthy in
  let s := Mock.page "https://app.example.com" 1700000000000 [] [] in
  In (EvCall (SelectProfile "u-1") false) (trace (diagnoseAuthProblems P s)) /\
  (SelectProfile "u-1" = GetSession \/
   SelectProfile "u-1" = GetUser \/
   exists id, SelectProfile "u-1" = SelectProfile id).
Proof.
  cbv zeta.
  assert (H : In (EvCall (SelectProfile "u-1") false)
                 (trace (diagnoseAuthProblems (Mock.provider Mock.healthy)
                           (Mock.page "https://app.example.com" 1700000000000 [] [])))).
  { vm_compute. repeat (first [left; reflexivity | right]). }
  split; [exact H|].
  exact (diagnosis_only_reads (Mock.provider Mock.healthy)
           (Mock.page "https://app.example.com" 1700000000000 [] []) _ _ H).
Defined.

(** ** How the two passes compose *)

Section Composition.
Context {W : Type} (P : Provider W).

(** X13. [applyAuthFixes] attempts as many fixes as the diagnosis from the
    same state counts problems: the [total] of its summary is the [total] of
    that diagnosis, and is at most 5. *)
Theorem applyAuthFixes_total_is_diagnosis_total (s : Env W) :
  exists d a,
    result (diagnoseAuthProblems P s) = Returned d /\
    result (applyAuthFixes P s) = Returned a /\
    Fixes.total (Fixes.summary a) = Diagnosis.total (Diagnosis.summary d) /\
    Fixes.total (Fixes.summary a) <= 5.
Proof.
  destruct (apply_run_reports P s) as (l & applied & H). cbv zeta in H.
  destruct H as (Hl & Hrep & Hfix & Ha & _).
  exists (Diagnosis.mk l (summarize l)), (Fixes.mk applied (tally applied)).
  split; [exact Hl|]. split; [exact Ha|].
  cbn [Fixes.summary Diagnosis.summary tally summarize Fixes.total Diagnosis.total].
  unfold count. rewrite <- (Forall2_length Hfix).
  split; [reflexivity|].
  pose proof (filter_length_le (fun p => Diagnosis.hasProblem p) l) as Hle.
  rewrite <- (length_map Diagnosis.problem l), (reports_problems s _ _ Hrep) in Hle.
  exact Hle.
Qed.

Lemma fix_pass_nil (s0 : Env W) :
  trace (Promise_all (map fixOne (@nil (Diagnosis.entry W))) s0) = [] /\
  final (Promise_all (map fixOne (@nil (Diagnosis.entry W))) s0) = s0.
Proof. split; reflexivity. Qed.

(** X14. When the diagnosis counts no problem, [applyAuthFixes] is that
    diagnosis and nothing more: it applies nothing, reports zeros, and makes
    no call and no change beyond those of the diagnostic pass. *)
Theorem applyAuthFixes_nothing_to_fix (s : Env W) (d : Diagnosis.t W) :
  result (diagnoseAuthProblems P s) = Returned d ->
  Diagnosis.total (Diagnosis.summary d) = 0 ->
  result (applyAuthFixes P s) = Returned (Fixes.mk [] (Fixes.mkSummary 0 0 0)) /\
  trace (applyAuthFixes P s) = trace (diagnoseAuthProblems P s) /\
  final (applyAuthFixes P s) = final (diagnoseAuthProblems P s).
Proof.
  intros Hd Hzero.
  destruct (apply_run_reports P s) as (l & applied & H). cbv zeta in H.
  destruct H as (Hl & _ & Hfix & Ha & Htr & Hfin & _).
  rewrite Hl in Hd. injection Hd as <-.
  cbn [Diagnosis.summary summarize Diagnosis.total] in Hzero. unfold count in Hzero.
  apply length_zero_iff_nil in Hzero.
  rewrite Hzero in Hfix, Htr, Hfin.
  inversion Hfix; subst applied.
  destruct (fix_pass_nil (final (diagnoseAuthProblems P s))) as [Etr Efin].
  rewrite Etr, app_nil_r in Htr. rewrite Efin in Hfin.
  split; [exact Ha|]. split; [exact Htr | exact Hfin].
Qed.

(** X15. Every entry of [applied] carries a message that is not empty, and
    a successful one carries no details. *)
Theorem applied_entries_have_messages (s : Env W) :
  exists a,
    result (applyAuthFixes P s) = Returned a /\
    forall x,
      In x (Fixes.applied a) ->
      Fixes.message x <> "" /\
      (Fixes.success x = true -> Fixes.details x = None).
Proof.
  destruct (apply_run_reports P s) as (l & applied & H). cbv zeta in H.
  destruct H as (_ & Hrep & Hfix & Ha & _).
  exists (Fixes.mk applied (tally applied)). split; [exact Ha|].
  cbn [Fixes.applied]. intros x Hx.
  destruct (Forall2_In_r _ _ _ _ Hfix Hx) as (e & He & _ & s' & _ & Hres).
  apply filter_In in He as [He _].
  destruct (diagnosis_entry_origin P s l e Hrep He) as (Hp & _).
  exact (registry_fixes_shape P _ s' _ Hp Hres).
Qed.

(** X16. The fix of [cors] always fails.  So whenever the diagnosis flags
    [cors], [applyAuthFixes] cannot report a clean sweep: [applied] has the
    entry of [cors] with [success = false] and the advice to configure the
    server, and [failed] is at least 1. *)
Theorem cors_flagged_never_all_fixed (s : Env W) (d : Diagnosis.t W)
    (e : Diagnosis.entry W) :
  result (diagnoseAuthProblems P s) = Returned d ->
  entry_for "cors" d = Some e ->
  Diagnosis.hasProblem e = true ->
  exists a x,
    result (applyAuthFixes P s) = Returned a /\
    In x (Fixes.applied a) /\
    AuthProblem.id (Fixes.problem x) = "cors" /\
    Fixes.success x = false /\
    Fixes.message x = "CORS deve ser configurado no servidor" /\
    1 <= Fixes.failed (Fixes.summary a).
Proof.
  intros Hd Hentry Hflag.
  destruct (apply_run_reports P s) as (l & applied & H). cbv zeta in H.
  destruct H as (Hl & Hrep & Hfix & Ha & _).
  rewrite Hl in Hd. injection Hd as <-.
  destruct (diagnosis_five P s l Hrep)
    as (e1 & e2 & e3 & e4 & e5 & -> & [H1 _] & [H2 _] & [H3 _] & [H4 _] & [H5 _]).
  unfold entry_for in Hentry. cbn [Diagnosis.problems find] in Hentry.
  rewrite H1, H2, H3, H4, H5 in Hentry.
  cbn in Hentry. injection Hentry as <-.
  assert (Hin : In e5 (filter (fun p => Diagnosis.hasProblem p) [e1; e2; e3; e4; e5])).
  { apply filter_In. split; [cbn; tauto | exact Hflag]. }
  destruct (Forall2_In_l _ _ _ _ Hfix Hin) as (x & Hx & Hpx & s' & _ & Hres).
  rewrite H5 in Hpx, Hres.
  cbn [AuthProblem.fix_ corsProblem] in Hres. unfold cors_fix, ret in Hres.
  cbn [result] in Hres. injection Hres as Hsucc Hmsg _.
  exists (Fixes.mk applied (tally applied)), x.
  split; [exact Ha|]. cbn [Fixes.applied Fixes.summary tally Fixes.failed].
  split; [exact Hx|]. split; [now rewrite Hpx|].
  split; [now symmetry|]. split; [now symmetry|].
  unfold count. apply (filter_In_length _ _ x Hx). now rewrite <- Hsucc.
Qed.
End Composition.

Lemma applyAuthFixes_nothing_to_fix_witness :
  let P := Mock.provider Mock.healthy in
  let s := Mock.page "http://localhost:5173" 1700000000000 [] [] in
  result (applyAuthFixes P s) = Returned (Fixes.mk [] (Fixes.mkSummary 0 0 0)) /\
  trace (applyAuthFixes P s) = trace (diagnoseAuthProblems P s) /\
  final (applyAuthFixes P s) = final (diagnoseAuthProblems P s).
Proof.
  cbv zeta.
  refine (applyAuthFixes_nothing_to_fix (Mock.provider Mock.healthy)
            (Mock.page "http://localhost:5173" 1700000000000 [] [])
            (diagnosis_of (Mock.provider Mock.healthy)
               [(false, None); (false, None); (false, None); (false, None);
                (false, None)]
               (Diagnosis.mkSummary 0 0 0 0 0)) _ _).
  - vm_compute. reflexivity.
  - reflexivity.
Defined.

Lemma cors_flagged_never_all_fixed_witness :
  let P := Mock.provider cors_blocked in
  let s := Mock.page "https://app.example.com" 1700000000000 [] [] in
  exists a x,
    result (applyAuthFixes P s) = Returned a /\
    In x (Fixes.applied a) /\
    AuthProblem.id (Fixes.problem x) = "cors" /\
    Fixes.success x = false /\
    Fixes.message x = "CORS deve ser configurado no servidor" /\
    1 <= Fixes.failed (Fixes.summary a).
Proof.
  cbv zeta.
  set (msg := "CORS policy: No 'Access-Control-Allow-Origin' header").
  refine (cors_flagged_never_all_fixed (Mock.provider cors_blocked)
            (Mock.page "https://app.example.com" 1700000000000 [] [])
            (diagnosis_of (Mock.provider cors_blocked)
               [(true, Some msg); (false, None);
                (true, Some ("Erro de conexão: " ++ msg)); (false, None);
                (true, Some "Erro de CORS detectado")]
               (Diagnosis.mkSummary 3 0 1 2 0))
            (Diagnosis.mkEntry (corsProblem (Mock.provider cors_blocked)) true
               (Some "Erro de CORS detectado")) _ _ _).
  - vm_compute. reflexivity.
  - vm_compute. reflexivity.
  - reflexivity.
Defined.

(** ** A network that is down *)

Section NetworkDown.
Context {W : Type} (P : Provider W).
Hypothesis down : all_rejected P.

Lemma down_checks (s : Env W) :
  CheckResult.hasProblem
    match result (sessionExpired_check P s) with Returned c => c | Thrown _ => no_problem end
  = true /\
  CheckResult.hasProblem
    match result (invalidToken_check P s) with Returned c => c | Thrown _ => no_problem end
  = true /\
  CheckResult.hasProblem
    match result (connectivity_check P s) with Returned c => c | Thrown _ => no_problem end
  = true /\
  CheckResult.hasProblem
    match result (missingProfile_check P s) with Returned c => c | Thrown _ => no_problem end
  = true /\
  CheckResult.hasProblem
    match result (cors_check P s) with Returned c => c | Thrown _ => no_problem end
  = negb (isLocalhost (origin s)).
Proof.
  destruct (down (world s)) as ((w1 & m1 & Hs) & (w2 & m2 & Hu) & _).
  destruct (dateNow P (world s)) as [w0 t0] eqn:Hnow.
  destruct (down w0) as ((w3 & m3 & Hs0) & _).
  repeat split.
  - unfold sessionExpired_check. unfold_run. rewrite Hs. reflexivity.
  - unfold invalidToken_check. unfold_run. rewrite Hu. reflexivity.
  - unfold connectivity_check. unfold_run. rewrite Hnow. run_step.
    rewrite Hs0. reflexivity.
  - unfold missingProfile_check. unfold_run. rewrite Hu. reflexivity.
  - unfold cors_check. unfold_run. run_step.
    destruct (isLocalhost (origin s)); run_step; [reflexivity|].
    rewrite Hs. reflexivity.
Qed.

Lemma down_fixes (p : AuthProblem.t W) (s : Env W) (f : FixResult.t) :
  In p (authProblems P) ->
  result (AuthProblem.fix_ p s) = Returned f ->
  FixResult.success f = false.
Proof.
  destruct (down (world s))
    as ((w1 & m1 & Hs) & (w2 & m2 & Hu) & (w3 & m3 & Ho) & (w4 & m4 & Hr) & _).
  unfold authProblems.
  intros [<-|[<-|[<-|[<-|[<-|[]]]]]]; cbn [AuthProblem.fix_
    sessionExpiredProblem invalidTokenProblem connectivityProblem
    missingProfileProblem corsProblem].
  - unfold sessionExpired_fix. unfold_run. rewrite Hr. run_step. now intros [= <-].
  - unfold invalidToken_fix. unfold_run. rewrite Ho. run_step. now intros [= <-].
  - unfold connectivity_fix. unfold_run. rewrite Hs. run_step. now intros [= <-].
  - unfold missingProfile_fix. unfold_run. rewrite Hu. run_step. now intros [= <-].
  - unfold cors_fix. unfold_run. run_step. now intros [= <-].
Qed.

(** X17. When every call to the provider rejects, the diagnosis flags
    [session_expired], [invalid_token], [connectivity] and [missing_profile],
    and [cors] as well unless the origin is localhost-like, so it counts 5
    problems, or 4 on localhost; and [applyAuthFixes] then fixes nothing:
    [successful] is 0 and every attempt is counted as failed. *)
Theorem network_down_nothing_fixed (s : Env W) :
  exists d a,
    result (diagnoseAuthProblems P s) = Returned d /\
    result (applyAuthFixes P s) = Returned a /\
    (forall e,
        In e (Diagnosis.problems d) ->
        AuthProblem.id (Diagnosis.problem e) <> "cors" ->
        Diagnosis.hasProblem e = true) /\
    Diagnosis.total (Diagnosis.summary d)
    = (if isLocalhost (origin s) then 4 else 5) /\
    Fixes.successful (Fixes.summary a) = 0 /\
    Fixes.failed (Fixes.summary a) = Diagnosis.total (Diagnosis.summary d).
Proof.
  destruct (apply_run_reports P s) as (l & applied & H). cbv zeta in H.
  destruct H as (Hl & Hrep & Hfix & Ha & _).
  exists (Diagnosis.mk l (summarize l)), (Fixes.mk applied (tally applied)).
  split; [exact Hl|]. split; [exact Ha|].
  destruct (diagnosis_five P s l Hrep)
    as (e1 & e2 & e3 & e4 & e5 & El
        & [H1 (s1 & _ & R1)] & [H2 (s2 & _ & R2)] & [H3 (s3 & _ & R3)]
        & [H4 (s4 & _ & R4)] & [H5 (s5 & (_ & _ & Ho5) & R5)]).
  cbn [AuthProblem.check sessionExpiredProblem invalidTokenProblem
       connectivityProblem missingProfileProblem corsProblem] in R1, R2, R3, R4, R5.
  pose proof (down_checks s1) as (D1 & _).
  pose proof (down_checks s2) as (_ & D2 & _).
  pose proof (down_checks s3) as (_ & _ & D3 & _).
  pose proof (down_checks s4) as (_ & _ & _ & D4 & _).
  pose proof (down_checks s5) as (_ & _ & _ & _ & D5).
  rewrite R1 in D1. rewrite R2 in D2. rewrite R3 in D3. rewrite R4 in D4.
  rewrite R5, Ho5 in D5. cbn [CheckResult.hasProblem] in D1, D2, D3, D4, D5.
  assert (Hnone : forall x, In x applied -> Fixes.success x = false).
  { intros x Hx.
    destruct (Forall2_In_r _ _ _ _ Hfix Hx) as (e & He & _ & s' & _ & Hres).
    apply filter_In in He as [He _].
    destruct (diagnosis_entry_origin P s l e Hrep He) as (Hp & _).
    exact (down_fixes _ s' _ Hp Hres). }
  assert (Hsucc : count (fun r => Fixes.success r) applied = 0).
  { unfold count.
    now rewrite (filter_none (fun r => Fixes.success r) applied Hnone). }
  assert (Htotal : count (fun r => Diagnosis.hasProblem r) l
                   = if isLocalhost (origin s) then 4 else 5).
  { subst l. unfold count. cbn [filter]. rewrite D1, D2, D3, D4, D5.
    now destruct (isLocalhost (origin s)). }
  cbn [Diagnosis.problems Diagnosis.summary Fixes.summary summarize tally
       Diagnosis.total Fixes.successful Fixes.failed].
  split.
  { subst l. intros e [<-|[<-|[<-|[<-|[<-|[]]]]]] Hid; try assumption.
    exfalso. apply Hid. now rewrite H5. }
  split; [exact Htotal|]. split; [exact Hsucc|].
  pose proof (filter_partition_length (fun r => Fixes.success r) applied) as Hpart.
  unfold count in *. rewrite Hsucc in Hpart. cbn [Nat.add] in Hpart.
  rewrite Hpart, <- (Forall2_length Hfix). reflexivity.
Qed.
End NetworkDown.

Lemma network_down_nothing_fixed_witness :
  let P := Mock.provider Mock.offline in
  let s := Mock.page "https://app.example.com" 1700000000000 [] [] in
  all_rejected P /\
  exists d a,
    result (diagnoseAuthProblems P s) = Returned d /\
    result (applyAuthFixes P s) = Returned a /\
    (forall e,
        In e (Diagnosis.problems d) ->
        AuthProblem.id (Diagnosis.problem e) <> "cors" ->
        Diagnosis.hasProblem e = true) /\
    Diagnosis.total (Diagnosis.summary d) = 5 /\
    Fixes.successful (Fixes.summary a) = 0 /\
    Fixes.failed (Fixes.summary a) = Diagnosis.total (Diagnosis.summary d).
Proof.
  cbv zeta.
  assert (H : all_rejected (Mock.provider Mock.offline)).
  { intros w. repeat split; intros; exists (w + 20)%Z, "Failed to fetch"; reflexivity. }
  split; [exact H|].
  exact (network_down_nothing_fixed (Mock.provider Mock.offline) H
           (Mock.page "https://app.example.com" 1700000000000 [] [])).
Defined.

(** ** The handlers of the component *)


Section Handlers.
Context {W : Type} (P : Provider W).


(** X19. The handler [handleClearAuthData] does nothing when the user
    declines.  When the user confirms, both storages are wiped, the page is
    reloaded exactly when the sign-out promise resolves, the toast "Erro ao
    limpar dados" is shown exactly when it rejects, and the toast of the
    [catch] is never shown. *)
Theorem handleClearAuthData_handler (s : Env W) :
  let declined := AuthFixer.handleClearAuthData P false s in
  let confirmed := AuthFixer.handleClearAuthData P true s in
  after declined = s /\
  calls declined = [] /\
  ui declined = [Confirm AuthFixer.confirmation false] /\
  (In Reload (ui confirmed) <-> exists w r, signOut P (world s) = (w, Resolved r)) /\
  (In (ToastError "Erro ao limpar dados") (ui confirmed) <->
   exists w reason, signOut P (world s) = (w, Rejected reason)) /\
  ~ In (ToastError "Erro ao limpar dados de autenticação") (ui confirmed) /\
  localStorage (after confirmed)
  = filter (fun kv => negb (mentions_auth (fst kv))) (localStorage s) /\
  sessionStorage (after confirmed)
  = filter (fun kv => negb (mentions_auth (fst kv))) (sessionStorage s).
Proof.
  cbv zeta. unfold AuthFixer.handleClearAuthData. cbn [negb].
  split; [reflexivity|]. split; [reflexivity|]. split; [reflexivity|].
  pose proof (clearAuthData_run P s) as Hrun.
  destruct (signOut P (world s)) as [w [r|reason]]; rewrite Hrun;
    cbn [after ui final result localStorage sessionStorage Status.success app];
    rewrite !purge_filter.
  - split; [split; [intros _; now exists w, r | intros _; cbn; tauto]|].
    split; [split; [cbn; intuition discriminate | intros (w' & m & H); discriminate]|].
    split; [cbn; intuition discriminate|]. now split.
  - split; [split; [cbn; intuition discriminate | intros (w' & r' & H); discriminate]|].
    split; [split; [intros _; now exists w, reason | intros _; cbn; tauto]|].
    split; [cbn; intuition discriminate|]. now split.
Qed.
End Handlers.

(** ** Problems that the engine cannot fix *)

Section Unfixable.
Context {W : Type} (P : Provider W).

(** X20. With a user, the [missing_profile] check selects the profile
    whose id is the id of that user, once, and reports no problem exactly
    when the select resolves with a row and without an error: a row that
    comes with an error is reported as a missing profile. *)
Theorem missingProfile_check_selects_user (s : Env W) (w : W)
    (r : UserResponse.t) (user : User.t) :
  getUser P (world s) = (w, Resolved r) ->
  UserResponse.user r = Some user ->
  exists rejected c,
    trace (missingProfile_check P s)
    = [EvCall GetUser false; EvCall (SelectProfile (User.id user)) rejected] /\
    result (missingProfile_check P s) = Returned c /\
    (CheckResult.hasProblem c = false <->
     exists w' row,
       selectProfile P (User.id user) w
       = (w', Resolved (SelectResponse.mk (Some row) None))).
Proof.
  intros Hcall Huser. unfold missingProfile_check. unfold_run.
  rewrite Hcall. run_step. rewrite Huser. run_step.
  destruct (selectProfile P (User.id user) w) as [w' [[[row|] [e|]]|reason]];
    run_step; do 2 eexists;
    (split; [reflexivity|]); (split; [reflexivity|]);
    cbn [CheckResult.hasProblem].
  - split; [discriminate|]. intros (w'' & row' & H). discriminate.
  - split; [|reflexivity]. intros _. now exists w', row.
  - split; [discriminate|]. intros (w'' & row' & H). discriminate.
  - split; [discriminate|]. intros (w'' & row' & H). discriminate.
  - split; [discriminate|]. intros (w'' & row' & H). discriminate.
Qed.

(** X21. While nobody is signed in, [missing_profile] is a problem that
    [applyAuthFixes] reports and cannot fix: when the user lookup resolves
    without a user in every state, the diagnosis flags [missing_profile] and
    [applied] has its entry with [success = false] and the message that the
    user is not authenticated. *)
Theorem signed_out_profile_not_fixed (s : Env W) :
  (forall w, exists w' r,
      getUser P w = (w', Resolved r) /\ UserResponse.user r = None) ->
  exists d a e x,
    result (diagnoseAuthProblems P s) = Returned d /\
    result (applyAuthFixes P s) = Returned a /\
    entry_for "missing_profile" d = Some e /\
    Diagnosis.hasProblem e = true /\
    Diagnosis.details e = Some "Usuário não autenticado" /\
    In x (Fixes.applied a) /\
    AuthProblem.id (Fixes.problem x) = "missing_profile" /\
    Fixes.success x = false /\
    Fixes.message x = "Usuário não autenticado".
Proof.
  intros Hout.
  destruct (apply_run_reports P s) as (l & applied & H). cbv zeta in H.
  destruct H as (Hl & Hrep & Hfix & Ha & _).
  destruct (diagnosis_five P s l Hrep)
    as (e1 & e2 & e3 & e4 & e5 & -> & [H1 _] & [H2 _] & [H3 _]
        & [H4 (s4 & _ & R4)] & [H5 _]).
  cbn [AuthProblem.check missingProfileProblem] in R4.
  destruct (Hout (world s4)) as (w4 & r4 & Hcall4 & Huser4).
  assert (Hcheck : result (missingProfile_check P s4)
                   = Returned (CheckResult.mk true (Some "Usuário não autenticado"))).
  { unfold missingProfile_check. unfold_run.
    rewrite Hcall4. run_step. rewrite Huser4. reflexivity. }
  rewrite Hcheck in R4. injection R4 as Hflag Hdet.
  assert (Hin : In e4 (filter (fun p => Diagnosis.hasProblem p) [e1; e2; e3; e4; e5])).
  { apply filter_In. split; [cbn; tauto | now symmetry]. }
  destruct (Forall2_In_l _ _ _ _ Hfix Hin) as (x & Hx & Hpx & s' & _ & Hres).
  rewrite H4 in Hpx, Hres.
  destruct (Hout (world s')) as (w' & r' & Hcall' & Huser').
  assert (Hfixres : result (missingProfile_fix P s')
                    = Returned (FixResult.mk false "Usuário não autenticado" None)).
  { unfold missingProfile_fix. unfold_run.
    rewrite Hcall'. run_step. rewrite Huser'. reflexivity. }
  cbn [AuthProblem.fix_ missingProfileProblem] in Hres.
  rewrite Hfixres in Hres. injection Hres as Hsucc Hmsg _.
  exists (Diagnosis.mk [e1; e2; e3; e4; e5] (summarize [e1; e2; e3; e4; e5])),
    (Fixes.mk applied (tally applied)), e4, x.
  split; [exact Hl|]. split; [exact Ha|].
  split.
  { unfold entry_for. cbn [Diagnosis.problems find]. rewrite H1, H2, H3, H4.
    reflexivity. }
  split; [now symmetry|]. split; [now symmetry|].
  cbn [Fixes.applied]. split; [exact Hx|]. split; [now rewrite Hpx|].
  split; now symmetry.
Qed.

(** X22. On a localhost-like origin the diagnosis never flags [cors],
    whatever the provider answers, so it counts at most 4 problems. *)
Theorem localhost_never_flags_cors (s : Env W) :
  isLocalhost (origin s) = true ->
  exists d e,
    result (diagnoseAuthProblems P s) = Returned d /\
    entry_for "cors" d = Some e /\
    Diagnosis.hasProblem e = false /\
    Diagnosis.details e = None /\
    Diagnosis.total (Diagnosis.summary d) <= 4.
Proof.
  intros Hlocal.
  destruct (diagnose_run P s) as (_ & _ & _ & l & Hl & Hrep).
  destruct (diagnosis_five P s l Hrep)
    as (e1 & e2 & e3 & e4 & e5 & -> & [H1 _] & [H2 _] & [H3 _] & [H4 _]
        & [H5 (s5 & (_ & _ & Ho5) & R5)]).
  cbn [AuthProblem.check corsProblem] in R5.
  rewrite cors_check_on_localhost in R5 by now rewrite Ho5.
  injection R5 as Hflag Hdet.
  exists (Diagnosis.mk [e1; e2; e3; e4; e5] (summarize [e1; e2; e3; e4; e5])), e5.
  split; [exact Hl|].
  split.
  { unfold entry_for. cbn [Diagnosis.problems find]. rewrite H1, H2, H3, H4, H5.
    reflexivity. }
  split; [now symmetry|]. split; [now symmetry|].
  cbn [Diagnosis.summary summarize Diagnosis.total]. unfold count. cbn [filter].
  rewrite <- Hflag.
  destruct (Diagnosis.hasProblem e1), (Diagnosis.hasProblem e2),
    (Diagnosis.hasProblem e3), (Diagnosis.hasProblem e4); cbn; lia.
Qed.
End Unfixable.

Lemma missingProfile_check_selects_user_witness :
  let P := Mock.provider Mock.healthy in
  let s := Mock.page "https://app.example.com" 1700000000000 [] [] in
  exists rejected c,
    trace (missingProfile_check P s)
    = [EvCall GetUser false; EvCall (SelectProfile "u-1") rejected] /\
    result (missingProfile_check P s) = Returned c /\
    (CheckResult.hasProblem c = false <->
     exists w' row,
       selectProfile P "u-1" (1700000000020)%Z
       = (w', Resolved (SelectResponse.mk (Some row) None))).
Proof.
  cbv zeta.
  refine (missingProfile_check_selects_user (Mock.provider Mock.healthy)
            (Mock.page "https://app.example.com" 1700000000000 [] [])
            (1700000000020)%Z (UserResponse.mk (Some Mock.alice) None)
            Mock.alice _ _); reflexivity.
Defined.

Lemma signed_out_profile_not_fixed_witness :
  let P := Mock.provider Mock.signed_out in
  let s := Mock.page "https://app.example.com" 1700000000000 [] [] in
  exists d a e x,
    result (diagnoseAuthProblems P s) = Returned d /\
    result (applyAuthFixes P s) = Returned a /\
    entry_for "missing_profile" d = Some e /\
    Diagnosis.hasProblem e = true /\
    Diagnosis.details e = Some "Usuário não autenticado" /\
    In x (Fixes.applied a) /\
    AuthProblem.id (Fixes.problem x) = "missing_profile" /\
    Fixes.success x = false /\
    Fixes.message x = "Usuário não autenticado".
Proof.
  cbv zeta.
  apply (signed_out_profile_not_fixed (Mock.provider Mock.signed_out)).
  intros w. exists (w + 20)%Z. eexists. split; reflexivity.
Defined.

Lemma localhost_never_flags_cors_witness :
  let P := Mock.provider cors_blocked in
  let s := Mock.page "http://localhost:5173" 1700000000000 [] [] in
  exists d e,
    result (diagnoseAuthProblems P s) = Returned d /\
    entry_for "cors" d = Some e /\
    Diagnosis.hasProblem e = false /\
    Diagnosis.details e = None /\
    Diagnosis.total (Diagnosis.summary d) <= 4.
Proof.
  cbv zeta.
  apply (localhost_never_flags_cors (Mock.provider cors_blocked)).
  reflexivity.
Defined.
